(** * Product options: storefront renderers and the cart price transform

    A shallow embedding of

    - [extensions/options/assets/option-renderers.js]
      ([wrapWithConditional], [validateNumberInput]) and
    - the cart transform function ([EXCLUDED_ATTRIBUTES], [cartTransformRun],
      [getAttributes]),

    together with the part of the JavaScript run-time these functions call
    ([parseFloat], [parseInt], [JSON.parse], [Object.entries], IEEE-754
    double arithmetic), followed by the properties of the specification that
    were checked against them.  The five renderers of the same file
    ([renderTextOption] to [renderDropdownThumbnailOption] and the table
    [window.OptionRenderers]) and the loader that supplies the storefront
    with the active option sets ([routes/api.options-active.tsx]) are
    embedded as well, with properties read off the code.

    Strings are byte strings holding the UTF-8 form of the JavaScript string;
    numbers are IEEE-754 binary64 values in the [spec_float] representation of
    the standard library, whose operations round to nearest, ties to even. *)

From Stdlib Require Import ZArith List Ascii String Bool Lia DecimalString DecimalNat.
From Stdlib Require Import Permutation Sorted.
From Stdlib Require Import Floats.SpecFloat.
From stdpp Require Import base decidable gmap strings.

Local Open Scope string_scope.
Local Open Scope Z_scope.

(* ===================================================================== *)
(** * The JavaScript run-time used by the code *)
(* ===================================================================== *)

Module JS.

(** ** Numbers *)

Definition Number : Type := spec_float.

Definition prec : Z := 53.
Definition emax : Z := 1024.

Definition NaN : Number := S754_nan.
Definition Infinity : Number := S754_infinity false.

(** The Number nearest to the integer [n] (the value of an integer literal). *)
Definition ofZ (n : Z) : Number := binary_normalize prec emax n 0 false.

(** [a + b]. *)
Definition add (a b : Number) : Number := SFadd prec emax a b.

(** [a < b] and [a > b]; both are false when an operand is NaN. *)
Definition lt (a b : Number) : bool := SFltb a b.
Definition gt (a b : Number) : bool := SFltb b a.

(** The global [isNaN] on a Number. *)
Definition isNaN (a : Number) : bool :=
  match a with S754_nan => true | _ => false end.

(** The Number nearest to [m * 10^e] for a natural [m], with the sign
    [neg]: the rounding that turns a decimal literal into a Number. *)
Definition ofDecimal (neg : bool) (m : Z) (e : Z) : Number :=
  match m with
  | Zpos p =>
      if 0 <=? e
      then binary_normalize prec emax (if neg then - (m * 10 ^ e) else m * 10 ^ e) 0 false
      else match 10 ^ (- e) with
           | Zpos d => SFdiv prec emax (S754_finite neg p 0) (S754_finite false d 0)
           | _ => NaN
           end
  | _ => S754_zero neg
  end.

(** ** Characters and strings *)

Definition dq : string := String (ascii_of_nat 34) EmptyString.
Definition nl : string := String (ascii_of_nat 10) EmptyString.

Definition code (c : ascii) : Z := Z.of_nat (nat_of_ascii c).

Definition isDigit (c : ascii) : bool := (48 <=? code c) && (code c <=? 57).

Definition digitValue (c : ascii) : Z := code c - 48.

(** The value of a hexadecimal digit, if [c] is one. *)
Definition hexValue (c : ascii) : option Z :=
  let n := code c in
  if (48 <=? n) && (n <=? 57) then Some (n - 48)
  else if (65 <=? n) && (n <=? 70) then Some (n - 55)
  else if (97 <=? n) && (n <=? 102) then Some (n - 87)
  else None.

(** [s.startsWith(p)], returning what follows the prefix. *)
Fixpoint stripPrefix (p s : string) : option string :=
  match p with
  | EmptyString => Some s
  | String a p' =>
      match s with
      | String b s' => if Ascii.eqb a b then stripPrefix p' s' else None
      | EmptyString => None
      end
  end.

(** The longest run of decimal digits at the start of [s], and the rest. *)
Fixpoint spanDigits (s : string) : string * string :=
  match s with
  | String c s' =>
      if isDigit c
      then let '(d, r) := spanDigits s' in (String c d, r)
      else (EmptyString, s)
  | EmptyString => (EmptyString, EmptyString)
  end.

(** The natural number written by a string of decimal digits. *)
Fixpoint digitsValueFrom (acc : Z) (s : string) : Z :=
  match s with
  | String c s' => digitsValueFrom (10 * acc + digitValue c) s'
  | EmptyString => acc
  end.

Definition digitsValue (s : string) : Z := digitsValueFrom 0 s.

(** ToBoolean on a string: only the empty string is falsy. *)
Definition truthy (s : string) : bool :=
  match s with EmptyString => false | _ => true end.

(** TrimString(s, start): drops leading WhiteSpace and LineTerminator code
    points (TAB, LF, VT, FF, CR, SP, and in UTF-8 form U+00A0, U+1680,
    U+2000..U+200A, U+2028, U+2029, U+202F, U+205F, U+3000, U+FEFF). *)
Fixpoint trimStart (s : string) : string :=
  match s with
  | String c1 r1 =>
      let n1 := code c1 in
      if ((9 <=? n1) && (n1 <=? 13)) || (n1 =? 32) then trimStart r1
      else
        match r1 with
        | String c2 r2 =>
            let n2 := code c2 in
            if (n1 =? 194) && (n2 =? 160) then trimStart r2
            else
              match r2 with
              | String c3 r3 =>
                  let n3 := code c3 in
                  if ((n1 =? 225) && (n2 =? 154) && (n3 =? 128))
                     || ((n1 =? 226) && (n2 =? 128)
                         && (((128 <=? n3) && (n3 <=? 138))
                             || (n3 =? 168) || (n3 =? 169) || (n3 =? 175)))
                     || ((n1 =? 226) && (n2 =? 129) && (n3 =? 159))
                     || ((n1 =? 227) && (n2 =? 128) && (n3 =? 128))
                     || ((n1 =? 239) && (n2 =? 187) && (n3 =? 191))
                  then trimStart r3
                  else s
              | EmptyString => s
              end
        | EmptyString => s
        end
  | EmptyString => EmptyString
  end.

(** ** parseFloat *)

(** The ExponentPart at the start of [s], if there is one: [e] or [E], an
    optional sign and at least one digit.  Returns its value. *)
Definition exponentPart (s : string) : Z :=
  match s with
  | String c r =>
      if (code c =? 101) || (code c =? 69) then
        let '(neg, r') :=
          match r with
          | String sg r'' =>
              if code sg =? 45 then (true, r'')
              else if code sg =? 43 then (false, r'')
              else (false, r)
          | EmptyString => (false, r)
          end in
        let '(ds, _) := spanDigits r' in
        match ds with
        | EmptyString => 0
        | _ => if neg then - digitsValue ds else digitsValue ds
        end
      else 0
  | EmptyString => 0
  end.

(** The value of the longest prefix of [s] that is a
    StrUnsignedDecimalLiteral, carrying the sign [neg]; NaN if no prefix
    is one. *)
Definition unsignedDecimalLiteral (neg : bool) (s : string) : Number :=
  match stripPrefix "Infinity" s with
  | Some _ => S754_infinity neg
  | None =>
      let '(ip, r1) := spanDigits s in
      let '(fp, r2) :=
        match r1 with
        | String c r =>
            if code c =? 46 then
              let '(fp, r2) := spanDigits r in
              match ip, fp with
              | EmptyString, EmptyString => (EmptyString, r1)
              | _, _ => (fp, r2)
              end
            else (EmptyString, r1)
        | EmptyString => (EmptyString, r1)
        end in
      match ip, fp with
      | EmptyString, EmptyString => NaN
      | _, _ =>
          ofDecimal neg (digitsValue (ip ++ fp))
                    (exponentPart r2 - Z.of_nat (String.length fp))
      end
  end.

(** [parseFloat(string)]: leading white space is skipped, the longest prefix
    that is a StrDecimalLiteral is converted, anything after it is ignored;
    NaN when there is no such prefix. *)
Definition parseFloat (s : string) : Number :=
  match trimStart s with
  | String c r =>
      if code c =? 45 then unsignedDecimalLiteral true r
      else if code c =? 43 then unsignedDecimalLiteral false r
      else unsignedDecimalLiteral false (String c r)
  | EmptyString => NaN
  end.

(** ** parseInt *)

(** The longest run of hexadecimal digits at the start of [s], as a value,
    with the number of digits read. *)
Fixpoint hexDigitsFrom (acc : Z) (n : nat) (s : string) : Z * nat :=
  match s with
  | String c s' =>
      match hexValue c with
      | Some v => hexDigitsFrom (16 * acc + v) (S n) s'
      | None => (acc, n)
      end
  | EmptyString => (acc, n)
  end.

(** [parseInt(string)] with the radix left out: leading white space and a
    sign are skipped, a [0x]/[0X] prefix switches to radix 16, the longest
    run of digits is converted and anything after it is ignored; NaN when
    there is no digit.  The result is the Number nearest to the integer
    read, with the sign of the input kept on a zero. *)
Definition parseInt (s : string) : Number :=
  let S0 := trimStart s in
  let '(neg, S1) :=
    match S0 with
    | String c r =>
        if code c =? 45 then (true, r)
        else if code c =? 43 then (false, r)
        else (false, S0)
    | EmptyString => (false, S0)
    end in
  let '(mathInt, ndigits) :=
    match S1 with
    | String c0 (String cx r) =>
        if (code c0 =? 48) && ((code cx =? 120) || (code cx =? 88))
        then hexDigitsFrom 0 0%nat r
        else let '(ds, _) := spanDigits S1 in (digitsValue ds, String.length ds)
    | _ => let '(ds, _) := spanDigits S1 in (digitsValue ds, String.length ds)
    end in
  match ndigits with
  | O => NaN
  | _ => binary_normalize prec emax (if neg then - mathInt else mathInt) 0 neg
  end.

(** ** Values, exceptions *)

(** The values [JSON.parse] can return. *)
#[warnings="-register-all"]
Inductive Value : Type :=
| Null
| Boolean (b : bool)
| Num (n : Number)
| Str (s : string)
| Arr (elements : list Value)
| Obj (properties : list (string * Value)).

Inductive Exception : Type := SyntaxError | TypeError.

(** The outcome of an expression that may throw. *)
Inductive Completion (A : Type) : Type :=
| Normal (a : A)
| Throw (e : Exception).
Arguments Normal {A} a.
Arguments Throw {A} e.

(** Sequencing: an exception thrown by the first part ends the whole. *)
Definition andThen {A B : Type} (c : Completion A) (k : A -> Completion B)
  : Completion B :=
  match c with
  | Normal a => k a
  | Throw e => Throw e
  end.

Notation "'let!' x ':=' c 'in' k" := (andThen c (fun x => k))
  (at level 10, x name, c at level 100, k at level 200).

(** ** UTF-8 *)

Definition byte (n : Z) : string := String (ascii_of_nat (Z.to_nat n)) EmptyString.

(** The UTF-8 form of a code point below 0x10000 (a lone surrogate is
    written the same way). *)
Definition utf8_bmp (cp : Z) : string :=
  if cp <? 128 then byte cp
  else if cp <? 2048 then byte (192 + cp / 64) ++ byte (128 + cp mod 64)
  else byte (224 + cp / 4096) ++ byte (128 + (cp / 64) mod 64) ++ byte (128 + cp mod 64).

(** The UTF-8 form of the code point of a surrogate pair. *)
Definition utf8_pair (hi lo : Z) : string :=
  let cp := 65536 + (hi - 55296) * 1024 + (lo - 56320) in
  byte (240 + cp / 262144) ++ byte (128 + (cp / 4096) mod 64)
  ++ byte (128 + (cp / 64) mod 64) ++ byte (128 + cp mod 64).

Definition isHighSurrogate (u : Z) : bool := (55296 <=? u) && (u <=? 56319).
Definition isLowSurrogate (u : Z) : bool := (56320 <=? u) && (u <=? 57343).

(** ** JSON.parse *)

Fixpoint skipWs (s : string) : string :=
  match s with
  | String c r =>
      let n := code c in
      if (n =? 32) || (n =? 9) || (n =? 10) || (n =? 13) then skipWs r else s
  | EmptyString => EmptyString
  end.

(** A piece of a string literal: source bytes taken as they are, or the
    code unit of a [\uXXXX] escape. *)
Inductive Piece : Type := Raw (c : ascii) | Unit16 (u : Z).

(** The characters of a JSON string literal after its opening quote, up to
    the closing quote, and what follows it. *)
Fixpoint stringPieces (s : string) : option (list Piece * string) :=
  match s with
  | EmptyString => None
  | String c r =>
      let n := code c in
      if n =? 34 then Some (nil, r)
      else if n <? 32 then None
      else if n =? 92 then
        match r with
        | String e r1 =>
            let k := code e in
            let simple (x : Z) :=
              match stringPieces r1 with
              | Some (ps, rest) => Some (Unit16 x :: ps, rest)
              | None => None
              end in
            if k =? 34 then simple 34
            else if k =? 92 then simple 92
            else if k =? 47 then simple 47
            else if k =? 98 then simple 8
            else if k =? 102 then simple 12
            else if k =? 110 then simple 10
            else if k =? 114 then simple 13
            else if k =? 116 then simple 9
            else if k =? 117 then
              match r1 with
              | String h1 (String h2 (String h3 (String h4 r2))) =>
                  match hexValue h1, hexValue h2, hexValue h3, hexValue h4 with
                  | Some a, Some b, Some c', Some d =>
                      match stringPieces r2 with
                      | Some (ps, rest) =>
                          Some (Unit16 (4096 * a + 256 * b + 16 * c' + d) :: ps, rest)
                      | None => None
                      end
                  | _, _, _, _ => None
                  end
              | _ => None
              end
            else None
        | EmptyString => None
        end
      else
        match stringPieces r with
        | Some (ps, rest) => Some (Raw c :: ps, rest)
        | None => None
        end
  end.

(** The string a list of pieces stands for: an escaped high surrogate
    followed by an escaped low surrogate is one code point. *)
Fixpoint piecesToString (ps : list Piece) : string :=
  match ps with
  | nil => EmptyString
  | Raw c :: ps' => String c (piecesToString ps')
  | Unit16 u :: ps' =>
      match ps' with
      | Unit16 v :: ps'' =>
          if isHighSurrogate u && isLowSurrogate v
          then utf8_pair u v ++ piecesToString ps''
          else utf8_bmp u ++ piecesToString ps'
      | _ => utf8_bmp u ++ piecesToString ps'
      end
  end.

Definition parseString (s : string) : option (string * string) :=
  match stringPieces s with
  | Some (ps, rest) => Some (piecesToString ps, rest)
  | None => None
  end.

(** A JSON number at the start of [s]: an optional minus sign, an integer
    part with no superfluous leading zero, an optional fraction (a point and
    at least one digit) and an optional exponent ([e] or [E], an optional
    sign and at least one digit). *)
Definition parseNumber (s : string) : option (Number * string) :=
  let '(neg, s1) :=
    match s with
    | String c r => if code c =? 45 then (true, r) else (false, s)
    | EmptyString => (false, s)
    end in
  let '(ip, r1) := spanDigits s1 in
  match ip with
  | EmptyString => None
  | String d0 ip' =>
      if (code d0 =? 48) && truthy ip' then None
      else
        let frac :=
          match r1 with
          | String c r =>
              if code c =? 46 then
                let '(fp, r2) := spanDigits r in
                match fp with
                | EmptyString => None
                | _ => Some (fp, r2)
                end
              else Some (EmptyString, r1)
          | EmptyString => Some (EmptyString, r1)
          end in
        match frac with
        | None => None
        | Some (fp, r2) =>
            let expo :=
              match r2 with
              | String c r =>
                  if (code c =? 101) || (code c =? 69) then
                    let '(eneg, r') :=
                      match r with
                      | String sg r'' =>
                          if code sg =? 45 then (true, r'')
                          else if code sg =? 43 then (false, r'')
                          else (false, r)
                      | EmptyString => (false, r)
                      end in
                    let '(ds, r3) := spanDigits r' in
                    match ds with
                    | EmptyString => None
                    | _ => Some (if eneg then - digitsValue ds else digitsValue ds, r3)
                    end
                  else Some (0, r2)
              | EmptyString => Some (0, r2)
              end in
            match expo with
            | None => None
            | Some (e, r3) =>
                Some (ofDecimal neg (digitsValue (ip ++ fp)) (e - Z.of_nat (String.length fp)), r3)
            end
        end
  end.

(** CreateDataProperty on an object under construction: a key that is
    already there keeps its place and takes the new value. *)
Fixpoint setProperty (k : string) (v : Value) (ps : list (string * Value))
  : list (string * Value) :=
  match ps with
  | nil => (k, v) :: nil
  | (k', v') :: ps' =>
      if String.eqb k k' then (k', v) :: ps' else (k', v') :: setProperty k v ps'
  end.

(** One JSON value at the start of [s] (after white space), and the rest.
    [fuel] bounds the nesting and the number of elements read. *)
Fixpoint parseValue (fuel : nat) (s : string) : option (Value * string) :=
  match fuel with
  | O => None
  | S fuel' =>
      match skipWs s with
      | EmptyString => None
      | String c r =>
          let n := code c in
          if n =? 123 then
            match skipWs r with
            | String c1 r1 =>
                if code c1 =? 125 then Some (Obj nil, r1)
                else parseMembers fuel' (String c1 r1) nil
            | EmptyString => None
            end
          else if n =? 91 then
            match skipWs r with
            | String c1 r1 =>
                if code c1 =? 93 then Some (Arr nil, r1)
                else parseElements fuel' (String c1 r1) nil
            | EmptyString => None
            end
          else if n =? 34 then
            match parseString r with
            | Some (str, rest) => Some (Str str, rest)
            | None => None
            end
          else if n =? 116 then
            match stripPrefix "rue" r with
            | Some rest => Some (Boolean true, rest)
            | None => None
            end
          else if n =? 102 then
            match stripPrefix "alse" r with
            | Some rest => Some (Boolean false, rest)
            | None => None
            end
          else if n =? 110 then
            match stripPrefix "ull" r with
            | Some rest => Some (Null, rest)
            | None => None
            end
          else
            match parseNumber (String c r) with
            | Some (x, rest) => Some (Num x, rest)
            | None => None
            end
      end
  end
with parseElements (fuel : nat) (s : string) (acc : list Value)
  : option (Value * string) :=
  match fuel with
  | O => None
  | S fuel' =>
      match parseValue fuel' s with
      | Some (v, rest) =>
          match skipWs rest with
          | String c r =>
              if code c =? 44 then parseElements fuel' r (acc ++ v :: nil)
              else if code c =? 93 then Some (Arr (acc ++ v :: nil), r)
              else None
          | EmptyString => None
          end
      | None => None
      end
  end
with parseMembers (fuel : nat) (s : string) (acc : list (string * Value))
  : option (Value * string) :=
  match fuel with
  | O => None
  | S fuel' =>
      match skipWs s with
      | String q r =>
          if code q =? 34 then
            match parseString r with
            | Some (k, rest) =>
                match skipWs rest with
                | String c r1 =>
                    if code c =? 58 then
                      match parseValue fuel' r1 with
                      | Some (v, rest1) =>
                          match skipWs rest1 with
                          | String c2 r2 =>
                              if code c2 =? 44
                              then parseMembers fuel' r2 (setProperty k v acc)
                              else if code c2 =? 125
                              then Some (Obj (setProperty k v acc), r2)
                              else None
                          | EmptyString => None
                          end
                      | None => None
                      end
                    else None
                | EmptyString => None
                end
            | None => None
            end
          else None
      | EmptyString => None
      end
  end.

(** [JSON.parse(text)]: the value of the text, or a SyntaxError when the
    text is not a single JSON value. *)
Definition JSON_parse (text : string) : Completion Value :=
  match parseValue (2 * String.length text + 2) text with
  | Some (v, rest) =>
      match skipWs rest with
      | EmptyString => Normal v
      | _ => Throw SyntaxError
      end
  | None => Throw SyntaxError
  end.

(** ** Object.entries *)

(** [String(i)] for an array index. *)
Definition indexKey (i : nat) : string := NilEmpty.string_of_uint (Nat.to_uint i).

(** The integer a property key denotes when the key is an array index: a
    canonical decimal numeral below 2^32 - 1. *)
Definition arrayIndex (k : string) : option Z :=
  match k with
  | EmptyString => None
  | String c r =>
      let '(ds, rest) := spanDigits k in
      if truthy rest then None
      else if (code c =? 48) && truthy r then None
      else if digitsValue ds <=? 4294967294 then Some (digitsValue ds) else None
  end.

(** Insertion of an index-keyed property into a list sorted by index. *)
Fixpoint insertByIndex (i : Z) (e : string * Value) (l : list (Z * (string * Value)))
  : list (Z * (string * Value)) :=
  match l with
  | nil => (i, e) :: nil
  | (j, e') :: l' =>
      if i <? j then (i, e) :: l else (j, e') :: insertByIndex i e l'
  end.

Fixpoint indexKeyed (ps : list (string * Value)) : list (Z * (string * Value)) :=
  match ps with
  | nil => nil
  | (k, v) :: ps' =>
      match arrayIndex k with
      | Some i => insertByIndex i (k, v) (indexKeyed ps')
      | None => indexKeyed ps'
      end
  end.

Definition isArrayIndex (k : string) : bool :=
  match arrayIndex k with Some _ => true | None => false end.

(** The own properties of an ordinary object in the order of
    OrdinaryOwnPropertyKeys: array indices in ascending order, then the
    other keys in the order of their creation. *)
Definition ownEntries (ps : list (string * Value)) : list (string * Value) :=
  List.map snd (indexKeyed ps)
  ++ List.filter (fun kv => negb (isArrayIndex (fst kv))) ps.

(** [[i, l[0]]; [i+1, l[1]]; ...]. *)
Fixpoint entriesFrom (i : nat) (l : list Value) : list (string * Value) :=
  match l with
  | nil => nil
  | v :: l' => (indexKey i, v) :: entriesFrom (S i) l'
  end.

(** The UTF-16 code units of a string, each as a string of its own (a code
    point above 0xFFFF gives its two surrogates). *)
Fixpoint codeUnits (s : string) : list string :=
  match s with
  | EmptyString => nil
  | String c1 r1 =>
      let n1 := code c1 in
      if n1 <? 192 then String c1 EmptyString :: codeUnits r1
      else
        match r1 with
        | EmptyString => s :: nil
        | String c2 r2 =>
            if n1 <? 224 then String c1 (String c2 EmptyString) :: codeUnits r2
            else
              match r2 with
              | EmptyString => s :: nil
              | String c3 r3 =>
                  if n1 <? 240
                  then String c1 (String c2 (String c3 EmptyString)) :: codeUnits r3
                  else
                    match r3 with
                    | EmptyString => s :: nil
                    | String c4 r4 =>
                        let cp := (n1 - 240) * 262144 + (code c2 - 128) * 4096
                                  + (code c3 - 128) * 64 + (code c4 - 128) in
                        utf8_bmp (55296 + (cp - 65536) / 1024)
                        :: utf8_bmp (56320 + (cp - 65536) mod 1024)
                        :: codeUnits r4
                    end
              end
        end
  end.

(** [Object.entries(v)]: the own enumerable string-keyed properties of
    ToObject(v); a TypeError for [null]. *)
Definition Object_entries (v : Value) : Completion (list (string * Value)) :=
  match v with
  | Null => Throw TypeError
  | Boolean _ => Normal nil
  | Num _ => Normal nil
  | Str s => Normal (entriesFrom 0 (List.map Str (codeUnits s)))
  | Arr l => Normal (entriesFrom 0 l)
  | Obj ps => Normal (ownEntries ps)
  end.

(** Zero of either sign, and the numbers below zero. *)
Definition isZero (a : Number) : bool :=
  match a with S754_zero _ => true | _ => false end.

Definition isNegative (a : Number) : bool :=
  match a with
  | S754_finite true _ _ => true
  | S754_infinity true => true
  | _ => false
  end.

(** Template-literal text written with ['] where the source has a double
    quote. *)
Fixpoint quoted (s : string) : string :=
  match s with
  | EmptyString => EmptyString
  | String c r => String (if code c =? 39 then ascii_of_nat 34 else c) (quoted r)
  end.

(** ** Texts that begin with digits *)

(** Every character of [s] is a decimal digit. *)
Fixpoint allDigits (s : string) : bool :=
  match s with
  | EmptyString => true
  | String c r => isDigit c && allDigits r
  end.



End JS.

(* ===================================================================== *)
(** * The cart transform function *)
(* ===================================================================== *)

Module CartTransform.
Import JS.
Local Open Scope list_scope.

(** ** Input: the cart snapshot ([CartTransformRunInput]) *)

(** [cost.amountPerQuantity]: a Decimal amount, delivered as a string. *)
Record MoneyV2 : Type := { amount : string }.

Record CartLineCost : Type := { amountPerQuantity : MoneyV2 }.

(** The selection of a line attribute: [{ value }], where the value is a
    string or [null]. *)
Record AttributeSelection : Type := { selected : option string }.

Record ProductVariant : Type := { variantId : string }.

(** A cart line.  [priceAttribute] is the additional-price signal of the
    line and [attribute] the serialized attribute blob; each is [null] when
    the line has no such attribute. *)
Record CartLine : Type := {
  id : string;
  cost : CartLineCost;
  priceAttribute : option AttributeSelection;
  attribute : option AttributeSelection;
  merchandise : ProductVariant
}.

Record Cart : Type := { lines : list CartLine }.

Record CartTransformRunInput : Type := { cart : Cart }.

(** ** Output: the operation batch ([CartTransformRunResult]) *)

Record KeyValue : Type := { key : string; value : Value }.

(** One replacement line of a [lineExpand]; [fixedPricePerUnit] is
    [price.adjustment.fixedPricePerUnit.amount]. *)
Record ExpandedCartItem : Type := {
  merchandiseId : string;
  quantity : Number;
  fixedPricePerUnit : Number;
  attributes : list KeyValue
}.

Record LineExpand : Type := {
  cartLineId : string;
  expandedCartItems : list ExpandedCartItem
}.

Record CartOperation : Type := { lineExpand : LineExpand }.

Record CartTransformRunResult : Type := { operations : list CartOperation }.

(** ** The code *)

Definition EXCLUDED_ATTRIBUTES : gset string :=
  {[ "_cart_transform_processed"; "_price" ]}.

(** [EXCLUDED_ATTRIBUTES.has(k)]. *)
Definition has (k : string) : bool := bool_decide (k ∈ EXCLUDED_ATTRIBUTES).

(** [a?.value], when it is truthy. *)
Definition truthyValue (a : option AttributeSelection) : option string :=
  match a with
  | Some {| selected := Some v |} => if truthy v then Some v else None
  | _ => None
  end.

(** The [try] block of [getAttributes], entered with [allAttributes]
    empty: the array when the block completes, or the exception thrown by
    [JSON.parse] or [Object.entries].  Both come before the first [push]. *)
Definition getAttributesTry (item : CartLine) : Completion (list KeyValue) :=
  let allAttributes : list KeyValue := nil in
  match truthyValue (attribute item) with
  | Some blob =>
      let! data := JSON_parse blob in
      let! entries := Object_entries data in
      Normal (fold_left
                (fun all (kv : string * Value) =>
                   all ++ {| key := fst kv; value := snd kv |} :: nil)
                entries allAttributes)
  | None => Normal allAttributes
  end.

(** [getAttributes(item)]: the [catch] logs the exception and the function
    returns [allAttributes], still empty then. *)
Definition getAttributes (item : CartLine) : list KeyValue :=
  match getAttributesTry item with
  | Normal allAttributes => allAttributes
  | Throw _ => nil
  end.

(** The processed marker pushed on the attribute array. *)
Definition processedMarker : KeyValue :=
  {| key := "_cart_transform_processed"; value := Str "true" |}.

(** The body of the [forEach] callback, as a function of the [operations]
    array it pushes on.  Nothing inside its [try] block throws:
    [parseFloat] is total, [getAttributes] catches what its own block
    throws, and the array methods are applied to arrays; the [catch], which
    only logs, is never entered. *)
Definition forEachLine (operations : list CartOperation) (item : CartLine)
  : list CartOperation :=
  let currentPrice := parseFloat (amount (amountPerQuantity (cost item))) in
  match truthyValue (priceAttribute item) with
  | Some signal =>
      let additionalPrice := parseFloat signal in
      if negb (isNaN additionalPrice) && gt additionalPrice (ofZ 0) then
        let allAttributes := getAttributes item in
        let isProcessed :=
          existsb (fun attr => String.eqb (key attr) "_cart_transform_processed")
                  allAttributes in
        if negb isProcessed then
          let newUnitPrice := add currentPrice additionalPrice in
          let allAttributes := allAttributes ++ processedMarker :: nil in
          let finalAttributes :=
            List.filter (fun attr => negb (has (key attr))) allAttributes in
          let expandOperation :=
            {| lineExpand :=
                 {| cartLineId := id item;
                    expandedCartItems :=
                      {| merchandiseId := variantId (merchandise item);
                         quantity := ofZ 1;
                         fixedPricePerUnit := newUnitPrice;
                         attributes := finalAttributes |} :: nil |} |} in
          operations ++ expandOperation :: nil
        else operations
      else operations
  | None => operations
  end.

Definition cartTransformRun (input : CartTransformRunInput) : CartTransformRunResult :=
  if (length (lines (cart input)) =? 0)%nat then {| operations := nil |}
  else {| operations := fold_left forEachLine (lines (cart input)) nil |}.

(** ** Notions used to state the properties *)

(** The test of the filter applied to the attribute array. *)
Definition visible (attr : KeyValue) : bool := negb (has (key attr)).

(** The operations the callback pushes for one line. *)
Definition lineOperations (item : CartLine) : list CartOperation :=
  forEachLine nil item.

Definition run (items : list CartLine) : list CartOperation :=
  operations (cartTransformRun {| cart := {| lines := items |} |}).

(** The line's parsed attribute blob holds the processed marker. *)
Definition isProcessed (item : CartLine) : bool :=
  existsb (fun attr => String.eqb (key attr) "_cart_transform_processed")
          (getAttributes item).

(** The additional-price signal of a line: the Number its price attribute
    parses to, when the attribute is there with a non-empty value. *)
Definition signal (item : CartLine) : option Number :=
  match truthyValue (priceAttribute item) with
  | Some s => Some (parseFloat s)
  | None => None
  end.

(** The base unit price of a line. *)
Definition basePrice (item : CartLine) : Number :=
  parseFloat (amount (amountPerQuantity (cost item))).

(** The blob of a line is missing (no attribute, a [null] or an empty
    value) or is not JSON text. *)
Definition blobMissing (item : CartLine) : Prop :=
  truthyValue (attribute item) = None.

Definition blobMalformed (item : CartLine) : Prop :=
  exists blob, truthyValue (attribute item) = Some blob
               /\ JSON_parse blob = Throw SyntaxError.

(** The one-to-one replacement of [item] at unit price [newUnitPrice] with
    the attributes [attrs]. *)
Definition replaceWith (item : CartLine) (newUnitPrice : Number) (attrs : list KeyValue)
  : CartOperation :=
  {| lineExpand :=
       {| cartLineId := id item;
          expandedCartItems :=
            {| merchandiseId := variantId (merchandise item);
               quantity := ofZ 1;
               fixedPricePerUnit := newUnitPrice;
               attributes := attrs |} :: nil |} |}.

(** Modelled from the spec: the input query of the function, which says
    from which attribute of a cart line [priceAttribute] is selected, is
    not under src/.  The additional-price signal is the dedicated line
    attribute that [EXCLUDED_ATTRIBUTES] names beside the processed marker,
    [_price]; the selection is [null] when the line has no attribute of
    that key. *)
Definition priceSelection (attrs : list KeyValue) : option AttributeSelection :=
  match List.find (fun a => String.eqb (key a) "_price") attrs with
  | Some a =>
      Some {| selected := match value a with Str s => Some s | _ => None end |}
  | None => None
  end.

(** [item'] is what the second pass receives for [item]: the line itself
    when the first pass left it alone, and otherwise a line carrying the
    attributes of the replacement the first pass emitted for it. *)
Definition secondPassLine (item item' : CartLine) : Prop :=
  match lineOperations item with
  | nil => item' = item
  | op :: _ =>
      exists repl, In repl (expandedCartItems (lineExpand op))
                   /\ priceAttribute item' = priceSelection (attributes repl)
  end.

(** ** Sample lines *)

Definition lineWith (amt : string) (price blob : option string) : CartLine :=
  {| id := "gid://shopify/CartLine/1";
     cost := {| amountPerQuantity := {| amount := amt |} |};
     priceAttribute :=
       match price with Some _ => Some {| selected := price |} | None => None end;
     attribute :=
       match blob with Some _ => Some {| selected := blob |} | None => None end;
     merchandise := {| variantId := "gid://shopify/ProductVariant/7" |} |}.

(** Base price 20.00, signal 5.50, a well-formed blob without the marker. *)
Definition scenarioLine : CartLine :=
  lineWith "20.00" (Some "5.50")
           (Some (quoted "{'Engraving':'Anna','_price':'5.50','Gift wrap':'Yes'}")).

(** The same line with a blob that is not JSON. *)
Definition malformedLine : CartLine :=
  lineWith "20.00" (Some "5.50") (Some "{Engraving: Anna").

(** A line whose signal is negative. *)
Definition negativeLine : CartLine :=
  lineWith "20.00" (Some "-3") (Some (quoted "{'Engraving':'Anna'}")).

(** What the second pass receives for [scenarioLine]: the new price and the
    emitted attributes, the blob being what it was. *)
Definition scenarioLineAfter : CartLine :=
  lineWith "25.5" None
           (Some (quoted "{'Engraving':'Anna','_price':'5.50','Gift wrap':'Yes'}")).

End CartTransform.

(* ===================================================================== *)
(** * The storefront renderers *)
(* ===================================================================== *)

Module OptionRenderers.
Import JS.

(** A property that holds a string, [null], or is missing. *)
Inductive Nullable : Type :=
| undefined
| null
| str (s : string).

(** ToBoolean. *)
Definition isTruthy (x : Nullable) : bool :=
  match x with str s => truthy s | _ => false end.

(** ToString, as applied by a template literal. *)
Definition toString (x : Nullable) : string :=
  match x with
  | undefined => "undefined"
  | null => "null"
  | str s => s
  end.

(** [a === x] for a string [a]. *)
Definition strictEq (a : string) (x : Nullable) : bool :=
  match x with str s => String.eqb a s | _ => false end.

(** An option as the renderers receive it; [values] is the JSON text of
    the option's values. *)
Record Option : Type := {
  id : string;
  type : string;
  name : string;
  required : bool;
  values : Nullable;
  dependOnOptionId : Nullable;
  showWhenValue : Nullable
}.

(** The text [wrapWithConditional] puts in front of and behind the
    fragment it wraps. *)
Definition conditionalOpen (dependOn expected : string) : string :=
  nl ++ quoted "      <div class='conditional-option'" ++
  nl ++ quoted "           data-depend-on='" ++ dependOn ++ dq ++
  nl ++ quoted "           data-expected-value='" ++ expected ++ dq ++
  nl ++ quoted "           style='display: none;'>" ++
  nl ++ "        ".

Definition conditionalClose : string :=
  nl ++ "      </div>" ++ nl ++ "    ".

Definition wrapWithConditional (html : string) (option : Option) (allOptions : list Option)
  : string :=
  if negb (isTruthy (dependOnOptionId option)) then html
  else if strictEq (id option) (dependOnOptionId option) then html
  else
    let dependOption :=
      List.find (fun opt => strictEq (id opt) (dependOnOptionId option)
                            && String.eqb (type opt) "radio")
                allOptions in
    match dependOption with
    | None => html
    | Some _ =>
        conditionalOpen (toString (dependOnOptionId option))
                        (toString (showWhenValue option))
        ++ html ++ conditionalClose
    end.

(** The number field as [validateNumberInput] sees it: the text of the
    input and the notice shown under it (message and type), if any. *)
Record NumberField : Type := {
  fieldValue : string;
  inputMessage : option (string * string)
}.

(** [window.showInputMessage(input, message, type)]: the notice replaces
    the one shown before. *)
Definition showInputMessage (input : NumberField) (message type : string) : NumberField :=
  {| fieldValue := fieldValue input; inputMessage := Some (message, type) |}.

(** [window.validateNumberInput(input)]. *)
Definition validateNumberInput (input : NumberField) : NumberField :=
  let value := parseInt (fieldValue input) in
  if String.eqb (fieldValue input) "" || isNaN value then input
  else if gt value (ofZ 99) then
    showInputMessage
      {| fieldValue := "99"; inputMessage := inputMessage input |}
      "Auto-corrected to maximum value: 99" "warning"
  else if lt value (ofZ 0) then
    showInputMessage
      {| fieldValue := "0"; inputMessage := inputMessage input |}
      "Auto-corrected to minimum value: 0" "warning"
  else input.

(** ** Notions used to state the properties *)

(** The dependency of [option] resolves: [dependOnOptionId] is the id of a
    different sibling option of type radio. *)
Definition resolves (option : Option) (allOptions : list Option) : Prop :=
  exists radio d,
    In radio allOptions
    /\ dependOnOptionId option = str d /\ d <> ""
    /\ id radio = d /\ type radio = "radio" /\ id radio <> id option.

(** The value of the property [k] of a parsed object. *)
Fixpoint property (k : string) (ps : list (string * Value)) : option Value :=
  match ps with
  | nil => None
  | (k', v) :: ps' => if String.eqb k k' then Some v else property k ps'
  end.

(** The label of the first value a radio option declares, read the way
    [renderRadioOption] reads the values ([JSON.parse(option.values)], then
    [value.label]). *)
Definition firstDeclaredLabel (radio : Option) : option string :=
  match values radio with
  | str text =>
      match JSON_parse text with
      | Normal (Arr (Obj ps :: _)) =>
          match property "label" ps with
          | Some (Str l) => Some l
          | _ => None
          end
      | _ => None
      end
  | _ => None
  end.

(** The text of a start tag from just after its [<] up to the [>] that
    closes it; a [>] inside a quoted attribute value does not close it. *)
Fixpoint tagText (inQuote : bool) (s : string) : string :=
  match s with
  | EmptyString => EmptyString
  | String c r =>
      if code c =? 34 then String c (tagText (negb inQuote) r)
      else if (code c =? 62) && negb inQuote then EmptyString
      else String c (tagText inQuote r)
  end.

(** The start tag of the first element of a fragment. *)
Fixpoint firstTag (s : string) : string :=
  match s with
  | EmptyString => EmptyString
  | String c r => if code c =? 60 then tagText false r else firstTag r
  end.

(** [hay.includes(needle)]. *)
Fixpoint includes (needle hay : string) : bool :=
  match stripPrefix needle hay with
  | Some _ => true
  | None =>
      match hay with
      | EmptyString => false
      | String _ r => includes needle r
      end
  end.

(** The outermost element of a rendered fragment starts hidden: its start
    tag carries the inline style [display: none]. *)
Definition startsHidden (fragment : string) : bool :=
  includes "display: none" (firstTag fragment).

(** No double quote occurs in [s]. *)
Fixpoint hasNoQuote (s : string) : bool :=
  match s with
  | EmptyString => true
  | String c r => negb (code c =? 34) && hasNoQuote r
  end.








(** The first declared value of [radio] is the one [option] waits for. *)
Definition defaultMatches (radio option : Option) : bool :=
  match firstDeclaredLabel radio with
  | Some l => strictEq l (showWhenValue option)
  | None => false
  end.

(** ** Sample options *)

(** A radio option with the values Yes and No. *)
Definition giftRadio : Option :=
  {| id := "opt-gift"; type := "radio"; name := "Gift"; required := false;
     values := str (quoted "[{'id':'v1','label':'Yes'},{'id':'v2','label':'No'}]");
     dependOnOptionId := null; showWhenValue := null |}.

(** A text option shown when the radio above is on Yes. *)
Definition giftMessage : Option :=
  {| id := "opt-message"; type := "text"; name := "Message"; required := false;
     values := null;
     dependOnOptionId := str "opt-gift"; showWhenValue := str "Yes" |}.

(** A text option depending on an option that is not there. *)
Definition orphanMessage : Option :=
  {| id := "opt-orphan"; type := "text"; name := "Note"; required := false;
     values := null;
     dependOnOptionId := str "opt-gone"; showWhenValue := str "Yes" |}.

(** A text option shown when the radio is on a value that holds a double
    quote. *)
Definition quotedMessage : Option :=
  {| id := "opt-quoted"; type := "text"; name := "Message"; required := false;
     values := null;
     dependOnOptionId := str "opt-gift"; showWhenValue := str (quoted "'>") |}.

Definition messageHtml : string :=
  quoted "<div class='product-option product-option--text'></div>".

End OptionRenderers.

(* ===================================================================== *)
(** * More of the run-time: conversions to strings *)
(* ===================================================================== *)

Module JSText.
Import JS.

(** The decimal digits of a natural number. *)
Definition digitsOf (n : Z) : string := NilZero.string_of_uint (N.to_uint (Z.to_N n)).

(** [count] copies of the digit 0. *)
Fixpoint zeros (count : nat) : string :=
  match count with
  | O => EmptyString
  | S count' => String "0" (zeros count')
  end.

(** The first [n] characters of [s], and the rest. *)
Fixpoint splitAt (n : nat) (s : string) : string * string :=
  match n, s with
  | S n', String c r => let '(a, b) := splitAt n' r in (String c a, b)
  | _, _ => (EmptyString, s)
  end.

(** [num / den >= 10^p], for positive [num] and [den]. *)
Definition atLeastPow10 (num den p : Z) : bool :=
  if 0 <=? p then den * 10 ^ p <=? num else den <=? num * 10 ^ (- p).

(** The greatest [n], searched downwards from [n], with
    [10^(n-1) <= num / den]. *)
Fixpoint decimalExponent (fuel : nat) (num den n : Z) : Z :=
  match fuel with
  | O => n
  | S fuel' =>
      if atLeastPow10 num den (n - 1) then n
      else decimalExponent fuel' num den (n - 1)
  end.

(** The shortest decimal that reads back as the positive finite Number
    [x = num / den]: integers [n], [k] and [s] with [k >= 1],
    [10^(k-1) <= s < 10^k], the Number nearest to [s * 10^(n-k)] being [x]
    and [k] as small as possible; of two such [s] the one nearer to [x],
    and the even one in a tie.  [k] runs from its first value up. *)
Fixpoint shortest (fuel : nat) (x : Number) (num den n k : Z) : Z * Z * Z :=
  let scaledNum := if 0 <=? k - n then num * 10 ^ (k - n) else num in
  let scaledDen := if 0 <=? k - n then den else den * 10 ^ (n - k) in
  let lo := scaledNum / scaledDen in
  let r := scaledNum mod scaledDen in
  let hi := lo + 1 in
  let '(hiS, hiN) := if hi =? 10 ^ k then (10 ^ (k - 1), n + 1) else (hi, n) in
  let reads (s m : Z) : bool :=
    match SFcompare (ofDecimal false s (m - k)) x with
    | Some Eq => true
    | _ => false
    end in
  let okLo := reads lo n in
  let okHi := reads hiS hiN in
  let takeHi :=
    match 2 * r ?= scaledDen with
    | Lt => false
    | Gt => true
    | Eq => Z.odd lo
    end in
  match fuel with
  | O => (n, k, lo)
  | S fuel' =>
      if okLo && okHi then (if takeHi then (hiN, k, hiS) else (n, k, lo))
      else if okLo then (n, k, lo)
      else if okHi then (hiN, k, hiS)
      else shortest fuel' x num den n (k + 1)
  end.

(** Number::toString for a positive finite mantissa and exponent. *)
Definition positiveToString (m : positive) (e : Z) : string :=
  let num := if 0 <=? e then Zpos m * 2 ^ e else Zpos m in
  let den := if 0 <=? e then 1 else 2 ^ (- e) in
  let n0 := decimalExponent 640 num den 310 in
  let '(n, k, s) := shortest 17 (S754_finite false m e) num den n0 1 in
  let ds := digitsOf s in
  if (k <=? n) && (n <=? 21) then ds ++ zeros (Z.to_nat (n - k))
  else if (0 <? n) && (n <=? 21) then
    let '(a, b) := splitAt (Z.to_nat n) ds in a ++ "." ++ b
  else if (-6 <? n) && (n <=? 0) then "0." ++ zeros (Z.to_nat (- n)) ++ ds
  else
    let expo := (if 0 <=? n - 1 then "+" else "-") ++ digitsOf (Z.abs (n - 1)) in
    match ds with
    | String c EmptyString => ds ++ "e" ++ expo
    | String c r => String c ("." ++ r) ++ "e" ++ expo
    | EmptyString => ds
    end.

(** Number::toString(x), radix 10. *)
Definition numberToString (x : Number) : string :=
  match x with
  | S754_nan => "NaN"
  | S754_zero _ => "0"
  | S754_infinity false => "Infinity"
  | S754_infinity true => "-Infinity"
  | S754_finite false m e => positiveToString m e
  | S754_finite true m e => "-" ++ positiveToString m e
  end.

(** [x.toFixed(f)]: the decimal with [f] digits after the point nearest to
    [x], the larger one in a tie; Number::toString takes over for a Number
    that is not finite or is 10^21 or more. *)
Definition toFixed (f : nat) (x : Number) : string :=
  match x with
  | S754_finite neg m e =>
      let num := if 0 <=? e then Zpos m * 2 ^ e else Zpos m in
      let den := if 0 <=? e then 1 else 2 ^ (- e) in
      if atLeastPow10 num den 21 then numberToString x
      else
        let n := (2 * num * 10 ^ Z.of_nat f + den) / (2 * den) in
        let ds := digitsOf n in
        let padded := zeros (S f - String.length ds) ++ ds in
        let '(a, b) := splitAt (String.length padded - f) padded in
        (if neg then "-" else "")
        ++ match f with O => padded | _ => a ++ "." ++ b end
  | S754_zero _ =>
      match f with O => "0" | _ => "0." ++ zeros f end
  | _ => numberToString x
  end.

(** A value as the renderers meet it: a parsed JSON value, or [undefined]
    for a property that is not there. *)
Inductive Any : Type :=
| Undefined
| Val (v : Value).

(** ToBoolean. *)
Definition toBoolean (a : Any) : bool :=
  match a with
  | Undefined => false
  | Val Null => false
  | Val (Boolean b) => b
  | Val (Num n) => negb (isZero n || isNaN n)
  | Val (Str s) => truthy s
  | Val (Arr _) => true
  | Val (Obj _) => true
  end.

(** An own property of a parsed object. *)
Fixpoint ownProperty (k : string) (ps : list (string * Value)) : option Value :=
  match ps with
  | nil => None
  | (k', v) :: ps' => if String.eqb k k' then Some v else ownProperty k ps'
  end.

(** ToString on a parsed value.  An array is joined with commas, [null]
    elements giving nothing; an object gives [[object Object]], unless an
    own property hides [Object.prototype.toString], in which case no
    conversion to a primitive is left and a TypeError is thrown. *)
Fixpoint valueToString (v : Value) : Completion string :=
  match v with
  | Null => Normal "null"
  | Boolean true => Normal "true"
  | Boolean false => Normal "false"
  | Num n => Normal (numberToString n)
  | Str s => Normal s
  | Arr l =>
      (fix join (first : bool) (l : list Value) : Completion string :=
         match l with
         | nil => Normal ""
         | x :: l' =>
             let! sx := match x with Null => Normal "" | _ => valueToString x end in
             let! rest := join false l' in
             Normal ((if first then "" else ",") ++ sx ++ rest)
         end) true l
  | Obj ps =>
      match ownProperty "toString" ps with
      | Some _ => Throw TypeError
      | None => Normal "[object Object]"
      end
  end.

Definition toStringAny (a : Any) : Completion string :=
  match a with
  | Undefined => Normal "undefined"
  | Val v => valueToString v
  end.

(** [v.k] for a key [k] that no built-in prototype defines (here [label],
    [image] and [price]): the own property of an object, [undefined] on
    any other value, a TypeError on [null]. *)
Definition get (k : string) (v : Value) : Completion Any :=
  match v with
  | Null => Throw TypeError
  | Obj ps =>
      match ownProperty k ps with
      | Some x => Normal (Val x)
      | None => Normal Undefined
      end
  | _ => Normal Undefined
  end.

(** [s.replace(/-/g, "_")]. *)
Fixpoint replaceDashes (s : string) : string :=
  match s with
  | EmptyString => EmptyString
  | String c r => String (if code c =? 45 then ascii_of_nat 95 else c) (replaceDashes r)
  end.

(** Template text written with a backquote where the source has a double
    quote (a backquote cannot occur in the text of a template literal). *)
Fixpoint tpl (s : string) : string :=
  match s with
  | EmptyString => EmptyString
  | String c r => String (if code c =? 96 then ascii_of_nat 34 else c) (tpl r)
  end.

(** [values.map(f).join("")], where [f] is given the element and its
    index; a TypeError when [values] is not an array. *)
Fixpoint mapJoinFrom (f : Value -> nat -> Completion string) (i : nat) (l : list Value)
  : Completion string :=
  match l with
  | nil => Normal ""
  | v :: l' =>
      let! piece := f v i in
      let! rest := mapJoinFrom f (S i) l' in
      Normal (piece ++ rest)
  end.

Definition mapJoin (f : Value -> nat -> Completion string) (values : Value)
  : Completion string :=
  match values with
  | Arr l => mapJoinFrom f 0 l
  | _ => Throw TypeError
  end.

(** TrimString(s, end), then [s.trim()]: the text is cut where what is
    left of it is white space only. *)
Fixpoint trimEnd (s : string) : string :=
  match s with
  | EmptyString => EmptyString
  | String c r =>
      match trimStart s with
      | EmptyString => EmptyString
      | _ => String c (trimEnd r)
      end
  end.

Definition trim (s : string) : string := trimEnd (trimStart s).

(** [s.split(",")]. *)
Fixpoint splitComma (s : string) : list string :=
  match s with
  | EmptyString => EmptyString :: nil
  | String c r =>
      if code c =? 44 then EmptyString :: splitComma r
      else
        match splitComma r with
        | h :: t => String c h :: t
        | nil => String c EmptyString :: nil
        end
  end.

(** [l.join(",")] for an array of strings. *)
Fixpoint joinComma (l : list string) : string :=
  match l with
  | nil => EmptyString
  | a :: nil => a
  | a :: l' => a ++ "," ++ joinComma l'
  end.

(** [s.endsWith(suffix)]. *)
Fixpoint endsWith (suffix s : string) : bool :=
  String.eqb suffix s
  || match s with
     | EmptyString => false
     | String _ r => endsWith suffix r
     end.

(** [l.includes(x)] for an array of strings. *)
Definition arrayIncludes (l : list string) (x : string) : bool :=
  existsb (String.eqb x) l.

(** Whatever [c] throws is a TypeError. *)
Definition onlyTypeError {A : Type} (c : Completion A) : Prop :=
  forall e, c = Throw e -> e = TypeError.

End JSText.

(* ===================================================================== *)
(** * The five renderers *)
(* ===================================================================== *)

Module Renderers.
Import JS JSText OptionRenderers.

(** An option as the renderers receive it, with its flat price: a Number,
    or [null] (the price column is a nullable REAL). *)
Record RenderOption : Type := {
  details : Option;
  price : option Number
}.

(** ToBoolean on the price. *)
Definition hasPrice (option : RenderOption) : bool :=
  match price option with
  | Some n => negb (isZero n || isNaN n)
  | None => false
  end.

(** The price as a template literal prints it. *)
Definition priceText (option : RenderOption) : string :=
  match price option with
  | Some n => numberToString n
  | None => "null"
  end.

Definition priceDisplayOf (option : RenderOption) : string :=
  if hasPrice option
  then tpl "<span class=`product-option__price`>(+" ++
  priceText option ++
  tpl ")</span>"
  else "".

Definition dataPriceOf (option : RenderOption) : string :=
  if hasPrice option
  then tpl "data-price=`" ++
  priceText option ++
  tpl "`"
  else "".

Definition requiredMarkOf (o : Option) : string :=
  if required o then tpl "<span class=`product-option__required`>*</span>" else "".

Definition requiredAttrOf (o : Option) : string :=
  if required o then "required" else "".

(** [option.values ? JSON.parse(option.values) : []]. *)
Definition parsedValues (o : Option) : Completion Value :=
  match values o with
  | str text => if truthy text then JSON_parse text else Normal (Arr nil)
  | _ => Normal (Arr nil)
  end.

(** The text of [value.label] in a template.  Where a template reads the
    label more than once the outcome is the same each time; it is read
    once here. *)
Definition labelOf (value : Value) : Completion string :=
  let! l := get "label" value in toStringAny l.

(** What every renderer returns: the fragment, wrapped when the option
    names a dependency. *)
Definition routed (html : string) (option : RenderOption) (allOptions : list RenderOption)
  : string :=
  if isTruthy (dependOnOptionId (details option))
  then wrapWithConditional html (details option) (List.map details allOptions)
  else html.

(** The fragments below are the template literals of the source, character
    for character, with a backquote for each double quote; [tpl] puts the
    double quotes back. *)

(** ** text *)

Definition textHtml (option : RenderOption) : string :=
  let o := details option in
  let priceDisplay := priceDisplayOf option in
  let dataPrice := dataPriceOf option in
  let requiredMark := requiredMarkOf o in
  let requiredAttr := requiredAttrOf o in
  tpl "
      <div class=`product-option product-option--text` data-option-id=`" ++
  id o ++
  tpl "` " ++
  dataPrice ++
  tpl ">
        <label class=`product-option__label`>
          " ++
  name o ++
  tpl " " ++
  priceDisplay ++
  tpl " " ++
  requiredMark ++
  tpl "
        </label>
        <input type=`text` class=`product-option__input`
          name=`properties[" ++
  name o ++
  tpl "]`
          pattern=`[^0-9]*`
          oninput=`this.value = this.value.replace(/[0-9]/g, '')`
          placeholder=`Please enter any characters except numbers`
          " ++
  requiredAttr ++
  tpl ">
      </div>
    ".

Definition renderTextOption (option : RenderOption) (allOptions : list RenderOption)
  : string :=
  routed (textHtml option) option allOptions.

(** ** number *)

Definition numberHtml (option : RenderOption) : string :=
  let o := details option in
  let priceDisplay := priceDisplayOf option in
  let dataPrice := dataPriceOf option in
  let requiredMark := requiredMarkOf o in
  let requiredAttr := requiredAttrOf o in
  let uniqueId := "number_" ++ replaceDashes (id o) in
  tpl "
      <div class=`product-option product-option--number` data-option-id=`" ++
  id o ++
  tpl "` " ++
  dataPrice ++
  tpl ">
        <label class=`product-option__label`>
          " ++
  name o ++
  tpl " " ++
  priceDisplay ++
  tpl " " ++
  requiredMark ++
  tpl "
        </label>
        <input type=`number` class=`product-option__input`
          id=`" ++
  uniqueId ++
  tpl "`
          name=`properties[" ++
  name o ++
  tpl "]`
          placeholder=`Please enter a number (0-99)`
          min=`0`
          max=`99`
          " ++
  requiredAttr ++
  tpl "
          oninput=`validateNumberInput(this)`
          onblur=`validateNumberInput(this)`>
        <div class=`number-range-info` style=`font-size: 0.75em; color: #666; margin-top: 3px;`>
          Range: 0-99
        </div>
      </div>
    ".

Definition renderNumberOption (option : RenderOption) (allOptions : list RenderOption)
  : string :=
  routed (numberHtml option) option allOptions.

(** ** dropdown *)

Definition dropdownNativeOption (value : Value) (index : nat) : Completion string :=
  let! label := labelOf value in
  Normal (tpl "<option value=`" ++
  label ++
  tpl "`>" ++
  label ++
  tpl "</option>").

Definition dropdownCustomOption (value : Value) (index : nat) : Completion string :=
  let! img := get "image" value in
  if toBoolean img then
    let! label := labelOf value in
    let! image := toStringAny img in
    Normal (tpl "<div class=`custom-option` data-value=`" ++
  label ++
  tpl "`>
                    <img src=`" ++
  image ++
  tpl "` class=`option-image`>
                    <span>" ++
  label ++
  tpl "</span>
                  </div>")
  else
    let! label := labelOf value in
    Normal (tpl "<div class=`custom-option` data-value=`" ++
  label ++
  tpl "`>
                    <span>" ++
  label ++
  tpl "</span>
                  </div>").

Definition dropdownHtml (option : RenderOption) : Completion string :=
  let o := details option in
  let! values := parsedValues o in
  let uniqueId := "dropdown_" ++ replaceDashes (id o) in
  let priceDisplay := priceDisplayOf option in
  let dataPrice := dataPriceOf option in
  let requiredMark := requiredMarkOf o in
  let requiredAttr := requiredAttrOf o in
  let pleaseSelect := if required o then "Please select..." else "Please select..." in
  let! nativeOptions := mapJoin dropdownNativeOption values in
  let! customOptions := mapJoin dropdownCustomOption values in
  Normal (tpl "
      <div class=`product-option product-option--dropdown` data-option-id=`" ++
  id o ++
  tpl "` " ++
  dataPrice ++
  tpl ">
        <label class=`product-option__label`>
          " ++
  name o ++
  tpl " " ++
  priceDisplay ++
  tpl " " ++
  requiredMark ++
  tpl "
        </label>
        <div class=`product-option__dropdown-container`>
          <select class=`product-option__input native-select` id=`" ++
  uniqueId ++
  tpl "`
            name=`properties[" ++
  name o ++
  tpl "]`
            " ++
  requiredAttr ++
  tpl " style=`display: none;`>
            <option value=``>Please select...</option>
            " ++
  nativeOptions ++
  tpl "
          </select>

          <div class=`custom-select-wrapper`>
            <div class=`custom-select-trigger`>" ++
  pleaseSelect ++
  tpl "</div>
            <div class=`custom-options`>
              <div class=`custom-option` data-value=``>Please select...</div>
              " ++
  customOptions ++
  tpl "
            </div>
          </div>
        </div>
      </div>
    ").

Definition renderDropdownOption (option : RenderOption) (allOptions : list RenderOption)
  : Completion string :=
  let! html := dropdownHtml option in
  Normal (routed html option allOptions).

(** ** radio *)

Definition radioItem (o : Option) (uniqueId : string) (value : Value) (i : nat)
  : Completion string :=
  let index := indexKey i in
  let! label := labelOf value in
  let requiredFirst := if (i =? 0)%nat && required o then "required" else "" in
  Normal (tpl "
            <div class=`product-option__radio-item`>
              <input type=`radio`
                id=`" ++
  uniqueId ++
  tpl "_" ++
  index ++
  tpl "`
                name=`properties[" ++
  name o ++
  tpl "]`
                value=`" ++
  label ++
  tpl "`
                class=`product-option__radio-input`
                data-option-id=`" ++
  id o ++
  tpl "`
                " ++
  requiredFirst ++
  tpl ">
              <label for=`" ++
  uniqueId ++
  tpl "_" ++
  index ++
  tpl "` class=`product-option__radio-label`>" ++
  label ++
  tpl "</label>
            </div>
          ").

Definition radioHtml (option : RenderOption) : Completion string :=
  let o := details option in
  let! values := parsedValues o in
  let uniqueId := "radio_" ++ replaceDashes (id o) in
  let requiredMark := requiredMarkOf o in
  let! items := mapJoin (radioItem o uniqueId) values in
  Normal (tpl "
      <div class=`product-option product-option--radio` data-option-id=`" ++
  id o ++
  tpl "`>
        <label class=`product-option__label`>
          " ++
  name o ++
  tpl " " ++
  requiredMark ++
  tpl "
        </label>
        <div class=`product-option__radio-group`>
          " ++
  items ++
  tpl "
        </div>
      </div>
      <style>
        .product-option__radio-item {
          display: flex;
          align-items: center;
        }
        .product-option__radio-input {
          margin-right: 8px;
        }
      </style>
    ").

Definition renderRadioOption (option : RenderOption) (allOptions : list RenderOption)
  : Completion string :=
  let! html := radioHtml option in
  Normal (routed html option allOptions).

(** ** dropdown with thumbnails *)

(** [value.price || 0]. *)
Definition priceOrZeroOf (value : Value) : Completion Any :=
  let! p := get "price" value in
  Normal (if toBoolean p then p else Val (Num (ofZ 0))).

Definition thumbnailNativeOption (value : Value) (index : nat) : Completion string :=
  let! label := labelOf value in
  let! pz := priceOrZeroOf value in
  let! priceOrZero := toStringAny pz in
  Normal (tpl "<option value=`" ++
  label ++
  tpl "` data-price=`" ++
  priceOrZero ++
  tpl "`>" ++
  label ++
  tpl "</option>").

Definition thumbnailCustomOption (value : Value) (index : nat) : Completion string :=
  let! pz := priceOrZeroOf value in
  let! pzText := toStringAny pz in
  let price := parseFloat pzText in
  let priceDisplay :=
    if gt price (ofZ 0)
    then let fixed := toFixed 2 price in tpl "<span class=`option-price`>(+$" ++
  fixed ++
  tpl ")</span>"
    else "" in
  let! label := labelOf value in
  let priceText := numberToString price in
  let! img := get "image" value in
  let! imageBox :=
    if toBoolean img
    then let! image := toStringAny img in Normal (tpl "<img src=`" ++
  image ++
  tpl "` class=`option-image` alt=`" ++
  label ++
  tpl "`>")
    else Normal (tpl "<div class=`no-image-placeholder`>No image</div>") in
  Normal (tpl "<div class=`custom-option thumbnail-option` data-value=`" ++
  label ++
  tpl "` data-price=`" ++
  priceText ++
  tpl "`>
                    <div class=`option-image-container`>
                      " ++
  imageBox ++
  tpl "
                    </div>
                    <div class=`option-text-container`>
                      <span class=`option-text`>" ++
  label ++
  tpl "</span>
                      " ++
  priceDisplay ++
  tpl "
                    </div>
                  </div>").

Definition thumbnailHtml (option : RenderOption) : Completion string :=
  let o := details option in
  let! values := parsedValues o in
  let uniqueId := "dropdown_thumbnail_" ++ replaceDashes (id o) in
  let requiredMark := requiredMarkOf o in
  let requiredAttr := requiredAttrOf o in
  let! nativeOptions := mapJoin thumbnailNativeOption values in
  let! customOptions := mapJoin thumbnailCustomOption values in
  Normal (tpl "
      <div class=`product-option product-option--dropdown-thumbnail` data-option-id=`" ++
  id o ++
  tpl "`>
        <label class=`product-option__label`>
          " ++
  name o ++
  tpl " " ++
  requiredMark ++
  tpl "
        </label>
        <div class=`product-option__dropdown-container`>
          <select class=`product-option__input native-select` id=`" ++
  uniqueId ++
  tpl "`
            name=`properties[" ++
  name o ++
  tpl "]`
            " ++
  requiredAttr ++
  tpl " style=`display: none;`>
            <option value=``>Please select...</option>
            " ++
  nativeOptions ++
  tpl "
          </select>

          <div class=`custom-select-wrapper thumbnail-select`>
            <div class=`custom-select-trigger thumbnail-trigger`>
              <div class=`trigger-content`>
                <div class=`trigger-image-placeholder`>
                  <span class=`placeholder-text`>Please select...</span>
                </div>
                <div class=`trigger-text-container`>
                  <span class=`trigger-text`>Please select...</span>
                  <span class=`trigger-price` style=`display: none;`></span>
                </div>
              </div>
            </div>
            <div class=`custom-options thumbnail-options`>
              <div class=`custom-option thumbnail-option` data-value=`` data-price=`0`>
                <div class=`option-image-container`>
                  <div class=`no-image-placeholder`>No image</div>
                </div>
                <div class=`option-text-container`>
                  <span class=`option-text`>Please select...</span>
                </div>
              </div>
              " ++
  customOptions ++
  tpl "
            </div>
          </div>
        </div>
      </div>
    ").

Definition renderDropdownThumbnailOption
  (option : RenderOption) (allOptions : list RenderOption) : Completion string :=
  let! html := thumbnailHtml option in
  Normal (routed html option allOptions).

(** ** The table of renderers *)

(** [window.OptionRenderers[type]]. *)
Definition rendererFor (type : string)
  : option (RenderOption -> list RenderOption -> Completion string) :=
  if String.eqb type "text"
  then Some (fun option allOptions => Normal (renderTextOption option allOptions))
  else if String.eqb type "dropdown" then Some renderDropdownOption
  else if String.eqb type "dropdown_thumbnail" then Some renderDropdownThumbnailOption
  else if String.eqb type "radio" then Some renderRadioOption
  else if String.eqb type "number"
  then Some (fun option allOptions => Normal (renderNumberOption option allOptions))
  else None.

(** ** Notions used to state the properties *)

(** The option with its dependency removed. *)
Definition withoutDependency (option : RenderOption) : RenderOption :=
  {| details :=
       {| id := id (details option);
          type := type (details option);
          name := name (details option);
          required := required (details option);
          values := values (details option);
          dependOnOptionId := null;
          showWhenValue := showWhenValue (details option) |};
     price := price option |}.

(** The attribute that makes the cart take the control up as a line-item
    property, and the one that carries the id of the option. *)
Definition fieldNameAttr (optionName : string) : string :=
  tpl "name=`properties[" ++ optionName ++ tpl "]`".

Definition optionIdAttr (optionId : string) : string :=
  tpl "data-option-id=`" ++ optionId ++ tpl "`".

(** The types whose renderer reads [option.values]. *)
Definition readsValues (type : string) : bool :=
  String.eqb type "dropdown" || String.eqb type "dropdown_thumbnail"
  || String.eqb type "radio".

(** ** Sample options *)

Definition priced (o : Option) (p : option Number) : RenderOption :=
  {| details := o; price := p |}.

(** A dropdown whose values are not JSON, and one with a [null] value. *)
Definition brokenDropdown : RenderOption :=
  priced {| id := "opt-size"; type := "dropdown"; name := "Size"; required := true;
            values := str "[{label: S}]";
            dependOnOptionId := null; showWhenValue := null |}
         (Some (parseFloat "2.5")).

Definition holedDropdown : RenderOption :=
  priced {| id := "opt-size"; type := "dropdown"; name := "Size"; required := true;
            values := str (quoted "[{'id':'v1','label':'S'}, null]");
            dependOnOptionId := null; showWhenValue := null |}
         None.

(** A text option shown when the radio [giftRadio] is on Yes, and the same
    option depending on an option that is not there. *)
Definition giftText : RenderOption := priced giftMessage (Some (parseFloat "5.5")).

Definition orphanText : RenderOption := priced orphanMessage None.

End Renderers.

(* ===================================================================== *)
(** * The supply of option sets to the storefront *)
(* ===================================================================== *)

Module ActiveOptions.
Import JS JSText.

(** A row of the option-set table with its options included. *)
Record ProductOptionSet : Type := {
  setId : string;
  setName : string;
  shop : string;
  active : bool;
  applyToAll : bool;
  productTags : option string;
  options : list Renderers.RenderOption
}.

(** What the loader returns. *)
Inductive LoaderData : Type :=
| OptionSets (optionSets : list ProductOptionSet)
| Failure (error : string) (status : Z).

(** ToBoolean on a string or [null]. *)
Definition given (x : option string) : bool :=
  match x with Some s => truthy s | None => false end.

(** [tags.split(",").map((tag) => tag.trim())]. *)
Definition tagList (tags : string) : list string :=
  List.map trim (splitComma tags).

(** The test of the [filter] in the loader. *)
Definition matchesTags (tagsArray : list string) (optionSet : ProductOptionSet) : bool :=
  if applyToAll optionSet then true
  else
    match productTags optionSet with
    | Some required =>
        if truthy required
        then existsb (fun requiredTag => arrayIncludes tagsArray requiredTag)
                     (tagList required)
        else false
    | None => false
    end.

(** [prisma.productOptionSet.findMany({ where: { shop, active: true } })]
    on the rows of the table. *)
Definition findManyActive (shopName : string) (table : list ProductOptionSet)
  : list ProductOptionSet :=
  List.filter (fun row => String.eqb (shop row) shopName && active row) table.

(** The loader of the active options, as a function of the two search
    parameters of the request and of the table; [table] is [None] when the
    query is rejected, which the [catch] turns into the 500 answer. *)
Definition loader (shopParam productTagsParam : option string)
           (table : option (list ProductOptionSet)) : LoaderData :=
  match shopParam with
  | Some shopName =>
      if truthy shopName then
        match table with
        | Some rows =>
            let optionSets := findManyActive shopName rows in
            let filteredOptionSets :=
              match productTagsParam with
              | Some tags =>
                  if truthy tags
                  then List.filter (matchesTags (tagList tags)) optionSets
                  else optionSets
              | None => optionSets
              end in
            OptionSets filteredOptionSets
        | None => Failure "Failed to fetch active options" 500
        end
      else Failure "Shop parameter is required" 400
  | None => Failure "Shop parameter is required" 400
  end.

(** The column written when a set is saved:
    [productTags.length > 0 ? productTags.join(",") : null]. *)
Definition storedTags (tags : list string) : option string :=
  match tags with
  | nil => None
  | _ => Some (joinComma tags)
  end.

(** The tags handed to the edit form:
    [optionSet.productTags ? optionSet.productTags.split(",") : []]. *)
Definition editedTags (stored : option string) : list string :=
  match stored with
  | Some s => if truthy s then splitComma s else nil
  | None => nil
  end.

(** No comma occurs in [s]. *)
Fixpoint hasNoComma (s : string) : bool :=
  match s with
  | EmptyString => true
  | String c r => negb (code c =? 44) && hasNoComma r
  end.

(** ** Sample rows *)

Definition row (name shopName : string) (isActive all : bool) (tags : option string)
  : ProductOptionSet :=
  {| setId := name; setName := name; shop := shopName; active := isActive;
     applyToAll := all; productTags := tags; options := nil |}.

Definition sampleTable : list ProductOptionSet :=
  row "Everything" "a.myshopify.com" true true None
  :: row "Gifts" "a.myshopify.com" true false (Some "gift, sale")
  :: row "Retired" "a.myshopify.com" false true None
  :: row "Shoes" "a.myshopify.com" true false (Some "shoes")
  :: row "Other shop" "b.myshopify.com" true true None
  :: nil.

End ActiveOptions.

(* ===================================================================== *)
(** * Notions for the batch of the cart transform and the number field *)
(* ===================================================================== *)

Module CartBatch.
Import JS CartTransform.
Local Open Scope list_scope.

(** The additional price the transform reads on a line (NaN when the line
    has no signal). *)
Definition additionalPriceOf (item : CartLine) : Number :=
  match signal item with
  | Some p => p
  | None => NaN
  end.

(** The line passes the three tests of the callback: a signal that is a
    number, above zero, and no processed marker in the parsed blob. *)
Definition adjustable (item : CartLine) : bool :=
  match signal item with
  | Some p => negb (isNaN p) && gt p (ofZ 0) && negb (isProcessed item)
  | None => false
  end.

(** The operation pushed for a line that passes them. *)
Definition replacementOf (item : CartLine) : CartOperation :=
  replaceWith item (add (basePrice item) (additionalPriceOf item))
              (List.filter visible (getAttributes item)).

(** The blob of a line parses to [data]. *)
Definition blobParsesTo (item : CartLine) (data : Value) : Prop :=
  exists blob, truthyValue (attribute item) = Some blob
               /\ JSON_parse blob = Normal data.

(** An attribute as a pair. *)
Definition pairOf (attr : KeyValue) : string * Value := (key attr, value attr).

(** The array index that the key of a property denotes, for a key that is
    one. *)
Definition indexOf (kv : string * Value) : Z :=
  match arrayIndex (fst kv) with
  | Some i => i
  | None => 0
  end.

(** ** Sample lines *)

(** A line whose blob holds the processed marker, with the value false. *)
Definition markedLine : CartLine :=
  lineWith "20.00" (Some "5.50")
           (Some (quoted "{'Engraving':'Anna','_cart_transform_processed':'false'}")).

(** A line whose base amount is no number. *)
Definition unpricedLine : CartLine :=
  lineWith "N/A" (Some "5.50") (Some (quoted "{'Engraving':'Anna'}")).

(** A line whose blob is a JSON array, and one whose blob is [null]. *)
Definition arrayBlobLine : CartLine :=
  lineWith "20.00" (Some "5.50") (Some (quoted "['Anna', true]")).

Definition nullBlobLine : CartLine :=
  lineWith "20.00" (Some "5.50") (Some "null").

(** A line whose blob has integer-like keys among the others. *)
Definition indexedBlobLine : CartLine :=
  lineWith "20.00" (Some "5.50")
           (Some (quoted "{'Size':'M','2':'b','Color':'Red','1':'a'}")).

End CartBatch.

(* ===================================================================== *)
(** * The tag picker of the option-set form *)
(* ===================================================================== *)

Module TagPicker.
Import JS JSText.
Local Open Scope list_scope.

(** The state of the form that the tag handlers read and set.  A handler
    runs on the state of the render that bound it, and React renders again
    between two events, so the list its updater function receives is the
    [selectedTags] it has read. *)
Record FormState : Type := {
  applyToAll : bool;
  selectedTags : list string;
  selectedTagForAdd : string;
  tagsError : string
}.

(** [handleApplyToAllChange(newApplyToAll)]. *)
Definition handleApplyToAllChange (newApplyToAll : bool) (st : FormState) : FormState :=
  if newApplyToAll
  then {| applyToAll := newApplyToAll;
          selectedTags := nil;
          selectedTagForAdd := "";
          tagsError := tagsError st |}
  else {| applyToAll := newApplyToAll;
          selectedTags := selectedTags st;
          selectedTagForAdd := selectedTagForAdd st;
          tagsError := tagsError st |}.

(** [handleAddTag()]. *)
Definition handleAddTag (st : FormState) : FormState :=
  if negb (truthy (selectedTagForAdd st)) then st
  else if arrayIncludes (selectedTags st) (selectedTagForAdd st) then
    {| applyToAll := applyToAll st;
       selectedTags := selectedTags st;
       selectedTagForAdd := selectedTagForAdd st;
       tagsError := "This tag is already selected" |}
  else
    {| applyToAll := applyToAll st;
       selectedTags := selectedTags st ++ selectedTagForAdd st :: nil;
       selectedTagForAdd := "";
       tagsError := "" |}.

(** [handleRemoveTag(tagToRemove)]. *)
Definition handleRemoveTag (tagToRemove : string) (st : FormState) : FormState :=
  {| applyToAll := applyToAll st;
     selectedTags :=
       List.filter (fun tag => negb (String.eqb tag tagToRemove)) (selectedTags st);
     selectedTagForAdd := selectedTagForAdd st;
     tagsError := tagsError st |}.

(** An entry of the select: [{ label, value }]. *)
Record SelectOption : Type := { label : string; value : string }.

(** [getSelectableTagOptions()], for the tags of the shop's products. *)
Definition getSelectableTagOptions (productTags : list string) (st : FormState)
  : list SelectOption :=
  let selectableTags :=
    List.filter (fun tag => negb (arrayIncludes (selectedTags st) tag)) productTags in
  {| label := "Select a tag..."; value := "" |}
  :: List.map (fun tag => {| label := tag; value := tag |}) selectableTags.

(** The select's [onChange={setSelectedTagForAdd}]: the user picks [tag]. *)
Definition pick (tag : string) (st : FormState) : FormState :=
  {| applyToAll := applyToAll st;
     selectedTags := selectedTags st;
     selectedTagForAdd := tag;
     tagsError := tagsError st |}.

Definition sampleForm : FormState :=
  {| applyToAll := false; selectedTags := "gift" :: "sale" :: nil;
     selectedTagForAdd := ""; tagsError := "" |}.

End TagPicker.

(* ===================================================================== *)
(** * Properties of the cart transform *)
(* ===================================================================== *)

Module CartTransformFacts.
Import JS CartTransform.
Local Open Scope list_scope.

Lemma has_spec (k : string) :
  has k = true <-> k = "_cart_transform_processed" \/ k = "_price".
Proof.
  unfold has, EXCLUDED_ATTRIBUTES.
  rewrite bool_decide_eq_true, elem_of_union, !elem_of_singleton.
  tauto.
Qed.

Lemma visible_spec (attr : KeyValue) :
  visible attr = true <->
  key attr <> "_cart_transform_processed" /\ key attr <> "_price".
Proof.
  unfold visible. rewrite negb_true_iff.
  destruct (has (key attr)) eqn:E.
  - apply has_spec in E. split; [discriminate | tauto].
  - split; [intros _ | reflexivity].
    split; intros K; assert (has (key attr) = true) as C
      by (apply has_spec; tauto); congruence.
Qed.

Lemma marker_filtered (all : list KeyValue) :
  List.filter visible (all ++ processedMarker :: nil) = List.filter visible all.
Proof.
  rewrite List.filter_app. simpl.
  replace (visible processedMarker) with false by (symmetry; vm_compute; reflexivity).
  apply app_nil_r.
Qed.

(** The callback only ever appends to [operations]. *)
Lemma forEachLine_push (ops : list CartOperation) (item : CartLine) :
  forEachLine ops item = ops ++ lineOperations item.
Proof.
  unfold lineOperations, forEachLine.
  destruct (truthyValue (priceAttribute item)) as [s|]; [| now rewrite app_nil_r].
  destruct (negb (isNaN (parseFloat s)) && gt (parseFloat s) (ofZ 0));
    [| now rewrite app_nil_r].
  destruct (negb (existsb _ (getAttributes item))); [reflexivity | now rewrite app_nil_r].
Qed.

Lemma fold_forEachLine (items : list CartLine) (ops : list CartOperation) :
  fold_left forEachLine items ops = ops ++ flat_map lineOperations items.
Proof.
  revert ops. induction items as [| item items IH]; intros ops; simpl.
  - now rewrite app_nil_r.
  - rewrite IH, forEachLine_push, <- app_assoc. reflexivity.
Qed.

Lemma run_flat_map (items : list CartLine) :
  run items = flat_map lineOperations items.
Proof.
  unfold run, cartTransformRun. simpl.
  destruct items as [| item items]; [reflexivity |].
  simpl length. simpl Nat.eqb. cbv iota.
  unfold operations. apply (fold_forEachLine (item :: items) nil).
Qed.

Lemma run_app (a b : list CartLine) : run (a ++ b) = run a ++ run b.
Proof. rewrite !run_flat_map. apply flat_map_app. Qed.

Lemma run_one (item : CartLine) : run (item :: nil) = lineOperations item.
Proof. rewrite run_flat_map. simpl. apply app_nil_r. Qed.

(** A line with a positive numeric signal and no marker in its blob is
    replaced, at the sum of the two prices, with the visible attributes. *)
Lemma lineOperations_adjusted (item : CartLine) (s : string) :
  truthyValue (priceAttribute item) = Some s ->
  isNaN (parseFloat s) = false ->
  gt (parseFloat s) (ofZ 0) = true ->
  isProcessed item = false ->
  lineOperations item =
  replaceWith item (add (basePrice item) (parseFloat s))
              (List.filter visible (getAttributes item)) :: nil.
Proof.
  intros Hs Hn Hp Hm.
  unfold lineOperations, forEachLine. rewrite Hs, Hn, Hp.
  unfold isProcessed in Hm. rewrite Hm. simpl.
  unfold replaceWith, basePrice.
  fold visible. rewrite marker_filtered. reflexivity.
Qed.

(** Every other line yields nothing. *)
Lemma lineOperations_skipped (item : CartLine) :
  match signal item with
  | Some p => isNaN p = true \/ gt p (ofZ 0) = false \/ isProcessed item = true
  | None => True
  end ->
  lineOperations item = nil.
Proof.
  unfold signal, lineOperations, forEachLine, isProcessed.
  destruct (truthyValue (priceAttribute item)) as [s|]; [| reflexivity].
  intros [H | [H | H]]; rewrite H.
  - reflexivity.
  - now rewrite andb_false_r.
  - now destruct (negb (isNaN (parseFloat s)) && gt (parseFloat s) (ofZ 0)).
Qed.

Ltac skipped_by Hs :=
  apply lineOperations_skipped; unfold signal; rewrite Hs; tauto.

(** The two cases are all there is. *)
Lemma lineOperations_cases (item : CartLine) :
  lineOperations item = nil
  \/ exists s,
       truthyValue (priceAttribute item) = Some s
       /\ lineOperations item =
          replaceWith item (add (basePrice item) (parseFloat s))
                      (List.filter visible (getAttributes item)) :: nil.
Proof.
  destruct (truthyValue (priceAttribute item)) as [s|] eqn:Hs.
  - destruct (isNaN (parseFloat s)) eqn:Hn; [left; skipped_by Hs |].
    destruct (gt (parseFloat s) (ofZ 0)) eqn:Hp; [| left; skipped_by Hs].
    destruct (isProcessed item) eqn:Hm; [left; skipped_by Hs |].
    right. exists s. split; [reflexivity |].
    now apply lineOperations_adjusted.
  - left. skipped_by Hs.
Qed.

(** No replacement carries an attribute of key [_price]. *)
Lemma priceSelection_filtered (all : list KeyValue) :
  priceSelection (List.filter visible all) = None.
Proof.
  unfold priceSelection.
  destruct (List.find _ (List.filter visible all)) as [a|] eqn:F; [| reflexivity].
  apply find_some in F as [Hin Hk].
  apply filter_In in Hin as [_ Hv].
  apply visible_spec in Hv as [_ Hv].
  apply String.eqb_eq in Hk. contradiction.
Qed.

(** A value that is zero, negative or NaN fails the test [!isNaN(p) && p > 0]. *)
Lemma not_positive (p : Number) :
  isZero p = true \/ isNegative p = true \/ isNaN p = true ->
  isNaN p = true \/ gt p (ofZ 0) = false.
Proof.
  destruct p as [[|] | [|] | | [|] m e]; simpl;
    intros [H | [H | H]]; try discriminate; auto.
Qed.

(** The result of a run is its list of operations. *)
Lemma cartTransformRun_run (input : CartTransformRunInput) :
  cartTransformRun input = {| operations := run (lines (cart input)) |}.
Proof.
  unfold run. destruct input as [[items]]. simpl.
  now destruct (cartTransformRun _).
Qed.

(** A line whose price selection is that of a list of visible attributes
    yields nothing. *)
Lemma no_price_no_operation (item' : CartLine) (all : list KeyValue) :
  priceAttribute item' = priceSelection (List.filter visible all) ->
  lineOperations item' = nil.
Proof.
  intros H. apply lineOperations_skipped.
  unfold signal. rewrite H, priceSelection_filtered. exact I.
Qed.

Lemma secondPassLine_skipped (item item' : CartLine) :
  secondPassLine item item' -> lineOperations item' = nil.
Proof.
  unfold secondPassLine.
  destruct (lineOperations_cases item) as [E | [s [_ E]]]; rewrite E.
  - intros ->. exact E.
  - intros [repl [[<- | []] Hp]]. simpl in Hp.
    now apply no_price_no_operation in Hp.
Qed.

(** ** The claims *)

(** C6: for the empty cart input ([lines = []]) [cartTransformRun] returns
    exactly [{ operations: [] }]. *)
Theorem empty_cart_no_operations :
  cartTransformRun {| cart := {| lines := nil |} |} = {| operations := nil |}.
Proof. reflexivity. Qed.

(** C2: a cart line that carries a numeric additional-price signal [p > 0],
    has base unit price [b] and no processed marker in its attributes gets,
    in the first pass, exactly one line-replace operation, at its place in
    the batch: it names the line, holds a single replacement with the line's
    merchandise and quantity 1, and its fixed price per unit is [b + p]. *)
Theorem first_pass_replaces_once
  (before after : list CartLine) (item : CartLine) (s : string) (b p : Number) :
  truthyValue (priceAttribute item) = Some s ->
  parseFloat s = p ->
  isNaN p = false ->
  gt p (ofZ 0) = true ->
  basePrice item = b ->
  isProcessed item = false ->
  exists attrs,
    run (before ++ item :: after) =
    run before
    ++ {| lineExpand :=
            {| cartLineId := id item;
               expandedCartItems :=
                 {| merchandiseId := variantId (merchandise item);
                    quantity := ofZ 1;
                    fixedPricePerUnit := add b p;
                    attributes := attrs |} :: nil |} |}
    :: run after.
Proof.
  intros Hs <- Hn Hp <- Hm.
  exists (List.filter visible (getAttributes item)).
  change (item :: after) with ((item :: nil) ++ after).
  rewrite !run_app, run_one.
  rewrite (lineOperations_adjusted item s Hs Hn Hp Hm).
  reflexivity.
Qed.

Lemma first_pass_replaces_once_witness :
  truthyValue (priceAttribute scenarioLine) = Some "5.50"
  /\ isNaN (parseFloat "5.50") = false
  /\ gt (parseFloat "5.50") (ofZ 0) = true
  /\ isProcessed scenarioLine = false
  /\ exists attrs,
       run (negativeLine :: scenarioLine :: malformedLine :: nil) =
       run (negativeLine :: nil)
       ++ {| lineExpand :=
               {| cartLineId := id scenarioLine;
                  expandedCartItems :=
                    {| merchandiseId := variantId (merchandise scenarioLine);
                       quantity := ofZ 1;
                       fixedPricePerUnit := add (parseFloat "20.00") (parseFloat "5.50");
                       attributes := attrs |} :: nil |} |}
       :: run (malformedLine :: nil).
Proof.
  repeat split; try reflexivity.
  apply (first_pass_replaces_once (negativeLine :: nil) (malformedLine :: nil)
           scenarioLine "5.50" (parseFloat "20.00") (parseFloat "5.50"));
    reflexivity.
Defined.

(** C5: a cart line whose additional-price signal is absent, or parses to
    zero, to a negative number or to no number at all, gets no operation:
    the batch is the one of the cart without that line. *)
Theorem no_positive_signal_no_operation
  (before after : list CartLine) (item : CartLine) :
  signal item = None
  \/ (exists p, signal item = Some p
                /\ (isZero p = true \/ isNegative p = true \/ isNaN p = true)) ->
  lineOperations item = nil
  /\ run (before ++ item :: after) = run (before ++ after).
Proof.
  intros H.
  assert (lineOperations item = nil) as E.
  { apply lineOperations_skipped.
    destruct H as [-> | [p [-> Hp]]]; [exact I |].
    destruct (not_positive p Hp); tauto. }
  split; [exact E |].
  change (item :: after) with ((item :: nil) ++ after).
  now rewrite !run_app, run_one, E.
Qed.

Lemma no_positive_signal_no_operation_witness :
  (exists p, signal negativeLine = Some p
             /\ (isZero p = true \/ isNegative p = true \/ isNaN p = true))
  /\ lineOperations negativeLine = nil
  /\ run (scenarioLine :: negativeLine :: malformedLine :: nil)
     = run (scenarioLine :: malformedLine :: nil).
Proof.
  assert (exists p, signal negativeLine = Some p
             /\ (isZero p = true \/ isNegative p = true \/ isNaN p = true)) as H.
  { exists (parseFloat "-3"). split; [reflexivity |]. right. left. reflexivity. }
  split; [exact H |].
  apply (no_positive_signal_no_operation (scenarioLine :: nil) (malformedLine :: nil)
           negativeLine (or_intror H)).
Defined.

(** Every operation of a batch is the replacement of one of the lines. *)
Lemma run_operation_origin (items : list CartLine) (op : CartOperation) :
  In op (run items) ->
  exists item s,
    In item items
    /\ op = replaceWith item (add (basePrice item) (parseFloat s))
                        (List.filter visible (getAttributes item)).
Proof.
  rewrite run_flat_map, in_flat_map. intros [item [Hin Hop]].
  destruct (lineOperations_cases item) as [E | [s [_ E]]]; rewrite E in Hop.
  - destruct Hop.
  - destruct Hop as [<- | []]. now exists item, s.
Qed.

(** C4: for every adjusted line, the attribute list of the replacement is
    the list parsed from the line's attribute blob without the attributes
    whose key is the processed marker or the additional-price signal: it
    holds neither key, and every other parsed attribute is in it, unchanged
    (the same key and value, in the same order). *)
Theorem replacement_attributes
  (input : CartTransformRunInput) (op : CartOperation) (repl : ExpandedCartItem) :
  In op (operations (cartTransformRun input)) ->
  In repl (expandedCartItems (lineExpand op)) ->
  exists item,
    In item (lines (cart input))
    /\ cartLineId (lineExpand op) = id item
    /\ attributes repl
       = List.filter (fun attr => negb (has (key attr))) (getAttributes item)
    /\ (forall attr, In attr (attributes repl) ->
          key attr <> "_cart_transform_processed" /\ key attr <> "_price")
    /\ (forall attr, In attr (getAttributes item) ->
          key attr <> "_cart_transform_processed" -> key attr <> "_price" ->
          In attr (attributes repl)).
Proof.
  intros Hop Hrepl.
  rewrite cartTransformRun_run in Hop. simpl in Hop.
  destruct (run_operation_origin _ _ Hop) as [item [s [Hin ->]]].
  destruct Hrepl as [<- | []]. simpl.
  exists item. repeat split; try assumption; try reflexivity.
  - apply filter_In in H as [_ H]. now apply visible_spec in H.
  - apply filter_In in H as [_ H]. now apply visible_spec in H.
  - intros attr Hattr K1 K2. apply filter_In. split; [assumption |].
    apply (proj2 (visible_spec attr)). now split.
Qed.

Lemma replacement_attributes_witness :
  exists op repl,
    In op (operations (cartTransformRun {| cart := {| lines := scenarioLine :: nil |} |}))
    /\ In repl (expandedCartItems (lineExpand op))
    /\ exists item,
         In item (scenarioLine :: nil)
         /\ cartLineId (lineExpand op) = id item
         /\ attributes repl
            = List.filter (fun attr => negb (has (key attr))) (getAttributes item)
         /\ (forall attr, In attr (attributes repl) ->
               key attr <> "_cart_transform_processed" /\ key attr <> "_price")
         /\ (forall attr, In attr (getAttributes item) ->
               key attr <> "_cart_transform_processed" -> key attr <> "_price" ->
               In attr (attributes repl)).
Proof.
  pose (attrs := {| key := "Engraving"; value := Str "Anna" |}
                 :: {| key := "Gift wrap"; value := Str "Yes" |} :: nil).
  pose (repl := {| merchandiseId := "gid://shopify/ProductVariant/7";
                   quantity := ofZ 1;
                   fixedPricePerUnit := parseFloat "25.5";
                   attributes := attrs |}).
  pose (op := {| lineExpand := {| cartLineId := "gid://shopify/CartLine/1";
                                  expandedCartItems := repl :: nil |} |}).
  assert (In op (operations
                   (cartTransformRun {| cart := {| lines := scenarioLine :: nil |} |})))
    as Hop by (left; reflexivity).
  assert (In repl (expandedCartItems (lineExpand op))) as Hrepl by (left; reflexivity).
  exists op, repl. split; [exact Hop |]. split; [exact Hrepl |].
  exact (replacement_attributes _ op repl Hop Hrepl).
Defined.

(** C9: parsing the attribute blob of a line never raises: an exception
    thrown inside [getAttributes] is caught there and the function returns
    the empty list; so it does when the blob is missing or is not JSON, and
    the line is then classified on its other fields: with a positive
    numeric signal it still gets its replacement, at the sum of the prices,
    and without a signal it gets nothing. *)
Theorem malformed_blob_is_empty (item : CartLine) :
  (forall e, getAttributesTry item = Throw e -> getAttributes item = nil)
  /\ (blobMissing item \/ blobMalformed item ->
      getAttributes item = nil
      /\ isProcessed item = false
      /\ (forall s,
            truthyValue (priceAttribute item) = Some s ->
            isNaN (parseFloat s) = false ->
            gt (parseFloat s) (ofZ 0) = true ->
            run (item :: nil)
            = replaceWith item (add (basePrice item) (parseFloat s)) nil :: nil)
      /\ (signal item = None -> run (item :: nil) = nil)).
Proof.
  split.
  { intros e H. unfold getAttributes. now rewrite H. }
  intros H.
  assert (getAttributes item = nil) as E.
  { unfold getAttributes, getAttributesTry.
    destruct H as [H | [blob [H P]]].
    - unfold blobMissing in H. now rewrite H.
    - now rewrite H, P. }
  assert (isProcessed item = false) as M by (unfold isProcessed; now rewrite E).
  repeat split; try assumption.
  - intros s Hs Hn Hp. rewrite run_one.
    rewrite (lineOperations_adjusted item s Hs Hn Hp M), E. reflexivity.
  - intros Hs. rewrite run_one. apply lineOperations_skipped. now rewrite Hs.
Qed.

Lemma malformed_blob_is_empty_witness :
  blobMalformed malformedLine
  /\ getAttributesTry malformedLine = Throw SyntaxError
  /\ getAttributes malformedLine = nil
  /\ run (malformedLine :: nil)
     = replaceWith malformedLine (add (parseFloat "20.00") (parseFloat "5.50")) nil
       :: nil.
Proof.
  assert (blobMalformed malformedLine) as H
    by (exists "{Engraving: Anna"; split; reflexivity).
  split; [exact H |]. split; [reflexivity |].
  destruct (malformed_blob_is_empty malformedLine) as [C B].
  split; [exact (C SyntaxError eq_refl) |].
  destruct (B (or_intror H)) as [_ [_ [A _]]].
  apply (A "5.50"); reflexivity.
Defined.

(** C1: the transform is idempotent.  Let the second pass receive, for each
    line of the cart, the line itself when the first pass left it alone and
    otherwise a line carrying the attributes of the replacement the first
    pass emitted (its price selection being the one of those attributes,
    whatever its id, price and blob are).  Then the second pass emits no
    operation at all: no price changes again. *)
Theorem second_pass_emits_nothing (items items' : list CartLine) :
  Forall2 secondPassLine items items' ->
  cartTransformRun {| cart := {| lines := items' |} |} = {| operations := nil |}.
Proof.
  intros H. rewrite cartTransformRun_run. simpl. f_equal.
  rewrite run_flat_map.
  induction H as [| item item' items items' Hl _ IH]; [reflexivity |].
  simpl. now rewrite (secondPassLine_skipped item item' Hl), IH.
Qed.

Lemma second_pass_emits_nothing_witness :
  Forall2 secondPassLine
          (scenarioLine :: negativeLine :: nil)
          (scenarioLineAfter :: negativeLine :: nil)
  /\ run (scenarioLine :: negativeLine :: nil)
     = replaceWith scenarioLine (parseFloat "25.5")
         ({| key := "Engraving"; value := Str "Anna" |}
          :: {| key := "Gift wrap"; value := Str "Yes" |} :: nil) :: nil
  /\ cartTransformRun
       {| cart := {| lines := scenarioLineAfter :: negativeLine :: nil |} |}
     = {| operations := nil |}.
Proof.
  assert (Forall2 secondPassLine
            (scenarioLine :: negativeLine :: nil)
            (scenarioLineAfter :: negativeLine :: nil)) as H.
  { constructor.
    - eexists. split; [left; reflexivity | reflexivity].
    - constructor; [reflexivity | constructor]. }
  split; [exact H |]. split; [reflexivity |].
  exact (second_pass_emits_nothing _ _ H).
Defined.

(** C3, as the code has it: when [cartTransformRun] adjusts a line, the
    processed marker it pushes on its working list is filtered out again,
    with the price signal, so the replacement it emits carries no processed
    marker; re-invocation on the result is a no-op all the same, because
    the replacement carries no price signal.  In particular a line with
    base price 20.00, signal 5.50 and no processed marker is replaced at
    unit price 25.50, without a processed marker on the result. *)
Theorem replacement_carries_no_marker :
  (forall (item : CartLine) (op : CartOperation) (repl : ExpandedCartItem),
      In op (run (item :: nil)) ->
      In repl (expandedCartItems (lineExpand op)) ->
      existsb (fun attr => String.eqb (key attr) "_cart_transform_processed")
              (attributes repl) = false
      /\ forall item' : CartLine,
           priceAttribute item' = priceSelection (attributes repl) ->
           run (item' :: nil) = nil)
  /\ (forall item : CartLine,
        amount (amountPerQuantity (cost item)) = "20.00" ->
        truthyValue (priceAttribute item) = Some "5.50" ->
        isProcessed item = false ->
        exists attrs,
          run (item :: nil) = replaceWith item (parseFloat "25.50") attrs :: nil
          /\ existsb (fun attr => String.eqb (key attr) "_cart_transform_processed")
                     attrs = false).
Proof.
  assert (forall all : list KeyValue,
             existsb (fun attr => String.eqb (key attr) "_cart_transform_processed")
                     (List.filter visible all) = false) as NoMarker.
  { intros all. apply not_true_is_false. intros H.
    apply existsb_exists in H as [attr [Hin Hk]].
    apply filter_In in Hin as [_ Hv]. apply visible_spec in Hv as [Hv _].
    apply String.eqb_eq in Hk. contradiction. }
  split.
  - intros item op repl Hop Hrepl.
    destruct (run_operation_origin _ _ Hop) as [it [s [_ ->]]].
    destruct Hrepl as [<- | []]. simpl. split; [apply NoMarker |].
    intros item' Hp. rewrite run_one. now apply no_price_no_operation in Hp.
  - intros item Ha Hs Hm.
    exists (List.filter visible (getAttributes item)).
    split; [| apply NoMarker].
    rewrite run_one, (lineOperations_adjusted item "5.50" Hs); try assumption;
      try reflexivity.
    unfold basePrice. rewrite Ha. reflexivity.
Qed.

Lemma replacement_carries_no_marker_witness :
  amount (amountPerQuantity (cost scenarioLine)) = "20.00"
  /\ truthyValue (priceAttribute scenarioLine) = Some "5.50"
  /\ isProcessed scenarioLine = false
  /\ exists attrs,
       run (scenarioLine :: nil)
       = replaceWith scenarioLine (parseFloat "25.50") attrs :: nil
       /\ existsb (fun attr => String.eqb (key attr) "_cart_transform_processed")
                  attrs = false.
Proof.
  repeat split; try reflexivity.
  apply (proj2 replacement_carries_no_marker scenarioLine); reflexivity.
Defined.

(** C3 as stated fails on the scenario itself: the batch for the line with
    base price 20.00 and signal 5.50 holds no replacement at unit price
    25.50 that has the processed marker among its attributes. *)
Lemma scenario_replacement_has_no_marker :
  ~ (exists op repl,
        In op (operations
                 (cartTransformRun {| cart := {| lines := scenarioLine :: nil |} |}))
        /\ In repl (expandedCartItems (lineExpand op))
        /\ fixedPricePerUnit repl = parseFloat "25.50"
        /\ existsb (fun attr => String.eqb (key attr) "_cart_transform_processed")
                   (attributes repl) = true).
Proof.
  intros [op [repl [Hop [Hrepl [_ Hm]]]]].
  vm_compute in Hop. destruct Hop as [<- | []].
  vm_compute in Hrepl. destruct Hrepl as [<- | []].
  vm_compute in Hm. discriminate Hm.
Qed.

End CartTransformFacts.

(* ===================================================================== *)
(** * Properties of the renderers *)
(* ===================================================================== *)

Module OptionRenderersFacts.
Import JS OptionRenderers.

Lemma truthy_nonempty (s : string) : truthy s = true <-> s <> "".
Proof. destruct s; simpl; split; congruence. Qed.

Lemma wrap_resolved (html : string) (option : Option) (allOptions : list Option) :
  resolves option allOptions ->
  wrapWithConditional html option allOptions
  = conditionalOpen (toString (dependOnOptionId option))
                    (toString (showWhenValue option))
    ++ html ++ conditionalClose.
Proof.
  intros [radio [d [Hin [D [Hd [Hid [Hty Hne]]]]]]].
  unfold wrapWithConditional. rewrite D. simpl.
  apply truthy_nonempty in Hd. rewrite Hd. simpl.
  assert (String.eqb (id option) d = false) as S
    by (apply String.eqb_neq; congruence).
  rewrite S.
  destruct (List.find _ allOptions) as [r |] eqn:F; [reflexivity |].
  exfalso. apply (find_none _ _ F) in Hin.
  rewrite Hid, Hty, !String.eqb_refl in Hin. discriminate.
Qed.

(** ** Reading the wrapper's start tag *)

Lemma append_cons (c : ascii) (a b : string) : String c a ++ b = String c (a ++ b).
Proof. reflexivity. Qed.

Lemma append_nil (b : string) : "" ++ b = b.
Proof. reflexivity. Qed.

Lemma append_assoc (a b c : string) : (a ++ b) ++ c = a ++ (b ++ c).
Proof.
  induction a as [| x a IH]; [reflexivity |].
  rewrite !append_cons. f_equal. exact IH.
Qed.

Lemma includes_app (needle x y : string) :
  includes needle y = true -> includes needle (x ++ y) = true.
Proof.
  intros H. induction x as [| c x IH]; [exact H |].
  rewrite append_cons. simpl.
  destruct (stripPrefix needle (String c (x ++ y))); [reflexivity | exact IH].
Qed.

(** Inside a quoted value without a quote of its own, the scan runs to the
    closing quote. *)
Lemma tagText_quoted (v rest : string) (q : ascii) :
  hasNoQuote v = true -> code q = 34 ->
  tagText true (v ++ String q rest) = v ++ String q (tagText false rest).
Proof.
  intros Hv Hq. induction v as [| c v IH].
  - rewrite !append_nil. simpl. now rewrite Hq.
  - rewrite !append_cons. simpl.
    simpl in Hv. apply andb_true_iff in Hv as [Hc Hv].
    apply negb_true_iff in Hc. rewrite Hc, andb_false_r. f_equal.
    now apply IH.
Qed.

Lemma wrapper_starts_hidden (dependOn expected rest : string) :
  hasNoQuote dependOn = true -> hasNoQuote expected = true ->
  startsHidden (conditionalOpen dependOn expected ++ rest) = true.
Proof.
  intros Hd He. unfold startsHidden, conditionalOpen, nl, dq.
  simpl. rewrite !append_assoc. rewrite ?append_cons, ?append_nil.
  rewrite (tagText_quoted dependOn _ (ascii_of_nat 34) Hd eq_refl).
  apply includes_app. simpl.
  rewrite ?append_cons, ?append_nil.
  rewrite (tagText_quoted expected _ (ascii_of_nat 34) He eq_refl).
  apply includes_app. reflexivity.
Qed.

(** ** The Number of an integer *)












(** ** The text [parseInt] reads *)

Lemma isDigit_code (c : ascii) : isDigit c = true -> 48 <= code c <= 57.
Proof. unfold isDigit. intros H. apply andb_true_iff in H as [A B]. lia. Qed.







(** ** The claims *)

(** C7: an option whose [dependOnOptionId] does not resolve to a different
    existing sibling option of type radio (the id is missing among the
    siblings, belongs to an option that is no radio, or is the option's own
    id) gets its rendered fragment back from the wrapping step as it is:
    unwrapped, hence with nothing that hides it.  The step is a total
    function: it does not throw. *)
Theorem unresolved_dependency_not_wrapped
  (html : string) (option : Option) (allOptions : list Option) :
  ~ resolves option allOptions ->
  wrapWithConditional html option allOptions = html.
Proof.
  intros N. unfold wrapWithConditional.
  destruct (dependOnOptionId option) as [| | d] eqn:D; try reflexivity.
  simpl. destruct (truthy d) eqn:T; [| reflexivity]. simpl.
  destruct (String.eqb (id option) d) eqn:S; [reflexivity |].
  destruct (List.find _ allOptions) as [radio |] eqn:F; [| reflexivity].
  exfalso. apply N.
  apply find_some in F as [Hin Hp].
  apply andb_true_iff in Hp as [Hid Hty].
  apply String.eqb_eq in Hid, Hty. apply String.eqb_neq in S.
  exists radio, d. repeat split; try assumption.
  - now apply truthy_nonempty.
  - congruence.
Qed.

Lemma unresolved_dependency_not_wrapped_witness :
  ~ resolves orphanMessage (giftRadio :: orphanMessage :: nil)
  /\ wrapWithConditional messageHtml orphanMessage (giftRadio :: orphanMessage :: nil)
     = messageHtml.
Proof.
  assert (~ resolves orphanMessage (giftRadio :: orphanMessage :: nil)) as N.
  { intros [radio [d [Hin [D [_ [Hid [_ Hne]]]]]]].
    injection D as <-.
    destruct Hin as [<- | [<- | []]]; [discriminate Hid | now apply Hne]. }
  split; [exact N |].
  exact (unresolved_dependency_not_wrapped messageHtml orphanMessage _ N).
Defined.

(** C8, as the code has it: on initial render, every conditional option
    whose dependency resolves to an existing radio option is put in a
    [conditional-option] container written with the radio's id
    ([data-depend-on]), the option's [showWhenValue]
    ([data-expected-value]) and the style [display: none], whatever the
    values of the governing radio are; no default value of the radio
    enters the decision.  The two attribute values are written as they
    are, so the container is initially hidden whenever neither of them
    holds a double quote. *)
Theorem conditional_container_starts_hidden
  (html : string) (option : Option) (allOptions : list Option) :
  resolves option allOptions ->
  wrapWithConditional html option allOptions
  = conditionalOpen (toString (dependOnOptionId option))
                    (toString (showWhenValue option))
    ++ html ++ conditionalClose
  /\ (hasNoQuote (toString (dependOnOptionId option)) = true ->
      hasNoQuote (toString (showWhenValue option)) = true ->
      startsHidden (wrapWithConditional html option allOptions) = true).
Proof.
  intros R. rewrite (wrap_resolved html option allOptions R).
  split; [reflexivity |].
  intros Hd He. now apply wrapper_starts_hidden.
Qed.

Lemma conditional_container_starts_hidden_witness :
  resolves giftMessage (giftRadio :: giftMessage :: nil)
  /\ hasNoQuote (toString (dependOnOptionId giftMessage)) = true
  /\ hasNoQuote (toString (showWhenValue giftMessage)) = true
  /\ wrapWithConditional messageHtml giftMessage (giftRadio :: giftMessage :: nil)
     = conditionalOpen "opt-gift" "Yes" ++ messageHtml ++ conditionalClose
  /\ startsHidden
       (wrapWithConditional messageHtml giftMessage (giftRadio :: giftMessage :: nil))
     = true.
Proof.
  assert (resolves giftMessage (giftRadio :: giftMessage :: nil)) as R.
  { exists giftRadio, "opt-gift".
    repeat split; try reflexivity; try discriminate. now left. }
  destruct (conditional_container_starts_hidden messageHtml giftMessage _ R) as [E H].
  split; [exact R |]. split; [reflexivity |]. split; [reflexivity |].
  split; [exact E | apply H; reflexivity].
Defined.

(** C8 as stated fails: the text option below depends on a radio whose
    first declared value is the very value it waits for, and its container
    is rendered hidden all the same. *)
Lemma default_value_does_not_show :
  resolves giftMessage (giftRadio :: giftMessage :: nil)
  /\ ~ (startsHidden
          (wrapWithConditional messageHtml giftMessage (giftRadio :: giftMessage :: nil))
        = false
        <-> defaultMatches giftRadio giftMessage = true).
Proof.
  split.
  - exists giftRadio, "opt-gift".
    repeat split; try reflexivity; try discriminate. now left.
  - intros [_ H]. specialize (H eq_refl). vm_compute in H. discriminate H.
Qed.

(** Both attribute values of the container are written unescaped: a double
    quote in [showWhenValue] ends the attribute there, and a [>] after it
    ends the start tag before its style. *)
Lemma unescaped_quote_ends_the_tag :
  resolves quotedMessage (giftRadio :: quotedMessage :: nil)
  /\ startsHidden
       (wrapWithConditional messageHtml quotedMessage (giftRadio :: quotedMessage :: nil))
     = false.
Proof.
  split; [| reflexivity].
  exists giftRadio, "opt-gift".
  repeat split; try reflexivity; try discriminate. now left.
Qed.




End OptionRenderersFacts.

(* ===================================================================== *)
(** * More properties of the cart transform *)
(* ===================================================================== *)

Module CartBatchFacts.
Import JS CartTransform CartTransformFacts CartBatch.
Local Open Scope list_scope.

(** What the callback pushes is decided by [adjustable]. *)
Lemma lineOperations_adjustable (item : CartLine) :
  lineOperations item = if adjustable item then replacementOf item :: nil else nil.
Proof.
  unfold adjustable, replacementOf, additionalPriceOf.
  destruct (signal item) as [p |] eqn:Hsig.
  - unfold signal in Hsig.
    destruct (truthyValue (priceAttribute item)) as [s |] eqn:Hs; [| discriminate].
    injection Hsig as <-.
    destruct (isNaN (parseFloat s)) eqn:Hn; [simpl; skipped_by Hs |].
    destruct (gt (parseFloat s) (ofZ 0)) eqn:Hp; [| simpl; skipped_by Hs].
    destruct (isProcessed item) eqn:Hm; [simpl; skipped_by Hs |].
    simpl. now apply lineOperations_adjusted.
  - apply lineOperations_skipped. now rewrite Hsig.
Qed.

Lemma run_filter_map (items : list CartLine) :
  run items = List.map replacementOf (List.filter adjustable items).
Proof.
  rewrite run_flat_map.
  induction items as [| item items IH]; [reflexivity |].
  simpl. rewrite lineOperations_adjustable, IH.
  now destruct (adjustable item).
Qed.

(** The batch follows the cart: it holds, in the order of the lines, one
    operation for each line that passes the tests of the callback and
    nothing else, so it names the ids of those lines in cart order and is
    never longer than the cart. *)
Theorem batch_follows_cart_order (items : list CartLine) :
  run items = List.map replacementOf (List.filter adjustable items)
  /\ List.map (fun op => cartLineId (lineExpand op)) (run items)
     = List.map id (List.filter adjustable items)
  /\ (length (run items) <= length items)%nat.
Proof.
  rewrite run_filter_map. split; [reflexivity |]. split.
  - rewrite List.map_map. reflexivity.
  - rewrite List.length_map. apply List.filter_length_le.
Qed.



(** A line whose parsed blob holds the key of the processed marker is
    skipped, whatever value the marker has and however positive the signal
    is: the batch is the one of the cart without that line. *)
Theorem processed_line_is_skipped (before after : list CartLine) (item : CartLine) :
  isProcessed item = true ->
  run (before ++ item :: after) = run (before ++ after).
Proof.
  intros H.
  change (item :: after) with ((item :: nil) ++ after).
  rewrite !run_app, run_one.
  rewrite (lineOperations_skipped item); [reflexivity |].
  destruct (signal item); [tauto | exact I].
Qed.

Lemma processed_line_is_skipped_witness :
  isProcessed markedLine = true
  /\ signal markedLine = Some (parseFloat "5.50")
  /\ run (scenarioLine :: markedLine :: nil) = run (scenarioLine :: nil).
Proof.
  split; [reflexivity |]. split; [reflexivity |].
  apply (processed_line_is_skipped (scenarioLine :: nil) nil markedLine).
  reflexivity.
Defined.

(** The base price is not checked: a line that passes the tests and whose
    base amount is no number is replaced all the same, at a unit price
    that is NaN. *)
Theorem unparsable_base_price_gives_nan (item : CartLine) :
  adjustable item = true ->
  isNaN (basePrice item) = true ->
  exists attrs, run (item :: nil) = replaceWith item NaN attrs :: nil.
Proof.
  intros Ha Hb. rewrite run_one, lineOperations_adjustable, Ha.
  exists (List.filter visible (getAttributes item)).
  unfold replacementOf. destruct (basePrice item); try discriminate Hb.
  reflexivity.
Qed.

Lemma unparsable_base_price_gives_nan_witness :
  adjustable unpricedLine = true
  /\ isNaN (basePrice unpricedLine) = true
  /\ exists attrs, run (unpricedLine :: nil) = replaceWith unpricedLine NaN attrs :: nil.
Proof.
  split; [reflexivity |]. split; [reflexivity |].
  apply unparsable_base_price_gives_nan; reflexivity.
Defined.

(** Nothing is emitted without cause: every operation of a batch replaces
    a line of the cart that has a numeric signal above zero and no
    processed marker, by exactly one item of quantity 1 with the line's
    merchandise, at the sum of the line's base price and signal. *)
Theorem operation_has_a_cause (items : list CartLine) (op : CartOperation) :
  In op (run items) ->
  exists item p attrs,
    In item items
    /\ signal item = Some p
    /\ isNaN p = false /\ gt p (ofZ 0) = true
    /\ isProcessed item = false
    /\ cartLineId (lineExpand op) = id item
    /\ expandedCartItems (lineExpand op)
       = {| merchandiseId := variantId (merchandise item);
            quantity := ofZ 1;
            fixedPricePerUnit := add (basePrice item) p;
            attributes := attrs |} :: nil.
Proof.
  rewrite run_filter_map, in_map_iff.
  intros [item [<- Hin]]. apply filter_In in Hin as [Hin Ha].
  unfold adjustable in Ha. unfold replacementOf, additionalPriceOf.
  destruct (signal item) as [p |] eqn:Hs; [| discriminate].
  apply andb_true_iff in Ha as [Ha Hm]. apply andb_true_iff in Ha as [Hn Hp].
  apply negb_true_iff in Hn, Hm.
  exists item, p, (List.filter visible (getAttributes item)).
  repeat split; assumption.
Qed.

Lemma operation_has_a_cause_witness :
  exists op,
    In op (run (negativeLine :: scenarioLine :: nil))
    /\ exists item p attrs,
         In item (negativeLine :: scenarioLine :: nil)
         /\ signal item = Some p
         /\ isNaN p = false /\ gt p (ofZ 0) = true
         /\ isProcessed item = false
         /\ cartLineId (lineExpand op) = id item
         /\ expandedCartItems (lineExpand op)
            = {| merchandiseId := variantId (merchandise item);
                 quantity := ofZ 1;
                 fixedPricePerUnit := add (basePrice item) p;
                 attributes := attrs |} :: nil.
Proof.
  assert (In (replacementOf scenarioLine) (run (negativeLine :: scenarioLine :: nil)))
    as H by (left; reflexivity).
  exists (replacementOf scenarioLine). split; [exact H |].
  exact (operation_has_a_cause _ _ H).
Defined.

End CartBatchFacts.

(* ===================================================================== *)
(** * Properties of the attributes of a line *)
(* ===================================================================== *)

Module AttributeFacts.
Import JS CartTransform CartTransformFacts CartBatch.
Local Open Scope list_scope.

(** ** Keys of a parsed object *)

Lemma setProperty_keys (k : string) (v : Value) (ps : list (string * Value)) :
  List.map fst (setProperty k v ps)
  = if existsb (String.eqb k) (List.map fst ps)
    then List.map fst ps
    else List.map fst ps ++ k :: nil.
Proof.
  induction ps as [| [k' v'] ps IH]; [reflexivity |].
  simpl. destruct (String.eqb k k') eqn:E; [reflexivity |].
  simpl. rewrite IH. now destruct (existsb (String.eqb k) (List.map fst ps)).
Qed.

Lemma setProperty_NoDup (k : string) (v : Value) (ps : list (string * Value)) :
  List.NoDup (List.map fst ps) -> List.NoDup (List.map fst (setProperty k v ps)).
Proof.
  intros H. rewrite setProperty_keys.
  destruct (existsb (String.eqb k) (List.map fst ps)) eqn:E; [exact H |].
  apply List.NoDup_app; [exact H | repeat constructor; intros [] |].
  intros x Hx [E' | []]. subst x.
  assert (existsb (String.eqb k) (List.map fst ps) = true) as C.
  { apply existsb_exists. exists k. split; [exact Hx | apply String.eqb_refl]. }
  congruence.
Qed.

Ltac split_match :=
  match goal with
  | H : context [match ?x with _ => _ end] |- _ =>
      destruct x eqn:?; try discriminate H
  end.

Lemma parseMembers_object (fuel : nat) :
  forall s acc v rest,
    parseMembers fuel s acc = Some (v, rest) ->
    List.NoDup (List.map fst acc) ->
    exists ps, v = Obj ps /\ List.NoDup (List.map fst ps).
Proof.
  induction fuel as [| fuel IH]; intros s acc v rest H Hacc; [discriminate H |].
  simpl in H.
  repeat split_match.
  - apply (IH _ _ _ _ H). now apply setProperty_NoDup.
  - injection H as <- <-. eexists. split; [reflexivity |].
    now apply setProperty_NoDup.
Qed.

Lemma parseElements_array (fuel : nat) :
  forall s acc v rest,
    parseElements fuel s acc = Some (v, rest) -> exists l, v = Arr l.
Proof.
  induction fuel as [| fuel IH]; intros s acc v rest H; [discriminate H |].
  simpl in H.
  repeat split_match.
  - apply (IH _ _ _ _ H).
  - injection H as <- <-. eexists. reflexivity.
Qed.

Lemma parseValue_object (fuel : nat) (s rest : string) (ps : list (string * Value)) :
  parseValue fuel s = Some (Obj ps, rest) -> List.NoDup (List.map fst ps).
Proof.
  destruct fuel as [| fuel]; intros H; [discriminate H |].
  simpl in H.
  repeat split_match; try (injection H as <- <-; try constructor; fail);
    try (injection H as E _; discriminate E).
  - destruct (parseMembers_object _ _ _ _ _ H (List.NoDup_nil _)) as [ps' [E N]].
    injection E as ->. exact N.
  - destruct (parseElements_array _ _ _ _ _ H) as [l E]. discriminate E.
Qed.

(** The keys of an object that [JSON.parse] returns are distinct. *)
Lemma JSON_parse_object_keys (text : string) (ps : list (string * Value)) :
  JSON_parse text = Normal (Obj ps) -> List.NoDup (List.map fst ps).
Proof.
  unfold JSON_parse. intros H.
  destruct (parseValue _ text) as [[v rest] |] eqn:P; [| discriminate H].
  destruct (skipWs rest); [| discriminate H].
  injection H as ->. exact (parseValue_object _ _ _ _ P).
Qed.

(** ** The order of [Object.entries] *)

Lemma insertByIndex_perm (i : Z) (e : string * Value) (l : list (Z * (string * Value))) :
  Permutation (insertByIndex i e l) ((i, e) :: l).
Proof.
  induction l as [| [j e'] l IH]; [reflexivity |].
  simpl. destruct (i <? j); [reflexivity |].
  rewrite IH. apply perm_swap.
Qed.

Lemma indexKeyed_perm (ps : list (string * Value)) :
  Permutation (List.map snd (indexKeyed ps))
              (List.filter (fun kv => isArrayIndex (fst kv)) ps).
Proof.
  induction ps as [| [k v] ps IH]; [reflexivity |].
  simpl. unfold isArrayIndex at 1. simpl.
  destruct (arrayIndex k) as [i |]; [| exact IH].
  rewrite insertByIndex_perm. simpl. now rewrite IH.
Qed.

Lemma filter_partition_perm {A : Type} (f : A -> bool) (l : list A) :
  Permutation (List.filter f l ++ List.filter (fun x => negb (f x)) l) l.
Proof.
  induction l as [| x l IH]; [reflexivity |].
  simpl. destruct (f x); simpl.
  - now rewrite IH.
  - rewrite <- Permutation_middle. now rewrite IH.
Qed.

Lemma ownEntries_perm (ps : list (string * Value)) :
  Permutation (ownEntries ps) ps.
Proof.
  unfold ownEntries. rewrite indexKeyed_perm.
  apply (filter_partition_perm (fun kv => isArrayIndex (fst kv))).
Qed.

Lemma filter_all {A : Type} (f : A -> bool) (l : list A) :
  (forall x, In x l -> f x = true) -> List.filter f l = l.
Proof.
  induction l as [| x l IH]; intros H; [reflexivity |].
  simpl. rewrite (H x (or_introl eq_refl)). f_equal.
  apply IH. intros y Hy. apply H. now right.
Qed.

Lemma indexKeyed_none (ps : list (string * Value)) :
  (forall kv, In kv ps -> isArrayIndex (fst kv) = false) -> indexKeyed ps = nil.
Proof.
  induction ps as [| [k v] ps IH]; intros H; [reflexivity |].
  simpl. pose proof (H (k, v) (or_introl eq_refl)) as E.
  unfold isArrayIndex in E. simpl in E.
  destruct (arrayIndex k); [discriminate E |].
  apply IH. intros kv Hkv. apply H. now right.
Qed.

(** ** Index keys *)

Lemma indexKey_inj (i j : nat) : indexKey i = indexKey j -> i = j.
Proof.
  unfold indexKey. intros H.
  assert (Nat.to_uint i = Nat.to_uint j) as E.
  { assert (NilEmpty.uint_of_string (NilEmpty.string_of_uint (Nat.to_uint i))
            = NilEmpty.uint_of_string (NilEmpty.string_of_uint (Nat.to_uint j)))
      as U by now rewrite H.
    rewrite !NilEmpty.usu in U. now injection U. }
  now apply DecimalNat.Unsigned.to_uint_inj.
Qed.

Lemma entriesFrom_keys (i : nat) (l : list Value) :
  List.map fst (entriesFrom i l) = List.map indexKey (seq i (length l)).
Proof.
  revert i. induction l as [| v l IH]; intros i; [reflexivity |].
  simpl. f_equal. apply IH.
Qed.

Lemma entriesFrom_values (i : nat) (l : list Value) :
  List.map snd (entriesFrom i l) = l.
Proof.
  revert i. induction l as [| v l IH]; intros i; [reflexivity |].
  simpl. f_equal. apply IH.
Qed.

Lemma entriesFrom_NoDup (i : nat) (l : list Value) :
  List.NoDup (List.map fst (entriesFrom i l)).
Proof.
  rewrite entriesFrom_keys.
  apply Finite.Injective_map_NoDup; [exact indexKey_inj | apply seq_NoDup].
Qed.

(** The keys of what [Object.entries] returns on a parsed value are
    distinct. *)
Lemma Object_entries_keys (text : string) (data : Value)
      (entries : list (string * Value)) :
  JSON_parse text = Normal data ->
  Object_entries data = Normal entries ->
  List.NoDup (List.map fst entries).
Proof.
  intros P E. destruct data; simpl in E; try discriminate E;
    injection E as <-; try constructor; try apply entriesFrom_NoDup.
  apply JSON_parse_object_keys in P.
  apply (Permutation_NoDup
           (Permutation_sym (Permutation_map fst (ownEntries_perm properties)))).
  exact P.
Qed.

(** ** The attributes of a line *)

Lemma push_all (entries : list (string * Value)) (all : list KeyValue) :
  fold_left
    (fun all (kv : string * Value) =>
       all ++ {| key := fst kv; value := snd kv |} :: nil)
    entries all
  = all ++ List.map (fun kv => {| key := fst kv; value := snd kv |}) entries.
Proof.
  revert all. induction entries as [| kv entries IH]; intros all; simpl.
  - now rewrite app_nil_r.
  - rewrite IH, <- app_assoc. reflexivity.
Qed.

(** What [getAttributes] returns, case by case. *)
Lemma getAttributes_cases (item : CartLine) :
  getAttributes item = nil
  \/ exists blob data entries,
       truthyValue (attribute item) = Some blob
       /\ JSON_parse blob = Normal data
       /\ Object_entries data = Normal entries
       /\ List.map pairOf (getAttributes item) = entries.
Proof.
  unfold getAttributes, getAttributesTry.
  destruct (truthyValue (attribute item)) as [blob |]; [| now left].
  destruct (JSON_parse blob) as [data | e] eqn:P; [| now left].
  simpl. destruct (Object_entries data) as [entries | e] eqn:E; [| now left].
  right. exists blob, data, entries. repeat split; try assumption.
  simpl. rewrite push_all. simpl. rewrite List.map_map.
  unfold pairOf. simpl.
  rewrite <- (List.map_id entries) at 2. apply List.map_ext. now intros [k v].
Qed.

Lemma getAttributes_of_data (item : CartLine) (data : Value) :
  blobParsesTo item data ->
  match Object_entries data with
  | Normal entries => List.map pairOf (getAttributes item) = entries
  | Throw _ => getAttributes item = nil
  end.
Proof.
  intros [blob [Hb P]].
  unfold getAttributes, getAttributesTry. rewrite Hb, P. simpl.
  destruct (Object_entries data) as [entries | e]; [| reflexivity].
  simpl. rewrite push_all. simpl. rewrite List.map_map.
  unfold pairOf. simpl.
  rewrite <- (List.map_id entries) at 2. apply List.map_ext. now intros [k v].
Qed.

Lemma getAttributes_keys (item : CartLine) :
  List.NoDup (List.map key (getAttributes item)).
Proof.
  destruct (getAttributes_cases item) as [-> | [blob [data [entries [_ [P [E H]]]]]]];
    [constructor |].
  pose proof (Object_entries_keys _ _ _ P E) as N.
  rewrite <- H, List.map_map in N. exact N.
Qed.

Lemma NoDup_map_filter {A B : Type} (f : A -> B) (p : A -> bool) (l : list A) :
  List.NoDup (List.map f l) -> List.NoDup (List.map f (List.filter p l)).
Proof.
  induction l as [| x l IH]; intros H; [constructor |].
  simpl in *. apply List.NoDup_cons_iff in H as [Hx Hl].
  destruct (p x); [| now apply IH].
  simpl. apply List.NoDup_cons; [| now apply IH].
  intros C. apply Hx.
  apply in_map_iff in C as [y [Ey Hy]]. apply filter_In in Hy as [Hy _].
  apply in_map_iff. now exists y.
Qed.

(** No key occurs twice among the attributes [getAttributes] returns, and
    so none occurs twice among the attributes of a replacement line. *)
Theorem replacement_keys_are_distinct :
  (forall item : CartLine, List.NoDup (List.map key (getAttributes item)))
  /\ (forall (input : CartTransformRunInput) (op : CartOperation)
             (repl : ExpandedCartItem),
        In op (operations (cartTransformRun input)) ->
        In repl (expandedCartItems (lineExpand op)) ->
        List.NoDup (List.map key (attributes repl))).
Proof.
  split; [exact getAttributes_keys |].
  intros input op repl Hop Hrepl.
  rewrite cartTransformRun_run in Hop. simpl in Hop.
  destruct (run_operation_origin _ _ Hop) as [item [s [_ ->]]].
  destruct Hrepl as [<- | []]. simpl.
  apply NoDup_map_filter, getAttributes_keys.
Qed.

Lemma replacement_keys_are_distinct_witness :
  exists op repl,
    In op (operations
             (cartTransformRun {| cart := {| lines := indexedBlobLine :: nil |} |}))
    /\ In repl (expandedCartItems (lineExpand op))
    /\ List.map key (attributes repl) = "1" :: "2" :: "Size" :: "Color" :: nil
    /\ List.NoDup (List.map key (attributes repl)).
Proof.
  exists (replacementOf indexedBlobLine).
  eexists. split; [left; reflexivity |]. split; [left; reflexivity |].
  split; [reflexivity |].
  apply (proj2 replacement_keys_are_distinct
               {| cart := {| lines := indexedBlobLine :: nil |} |}
               (replacementOf indexedBlobLine)); left; reflexivity.
Defined.

(** ** Array-index keys *)

Lemma code_inj (a b : ascii) : code a = code b -> a = b.
Proof.
  unfold code. intros H. apply Nat2Z.inj in H.
  rewrite <- (ascii_nat_embedding a), <- (ascii_nat_embedding b). now f_equal.
Qed.

Lemma spanDigits_spec (s ds rest : string) :
  spanDigits s = (ds, rest) -> s = (ds ++ rest)%string /\ allDigits ds = true.
Proof.
  revert ds rest. induction s as [| c s IH]; intros ds rest H; simpl in H.
  - injection H as <- <-. now split.
  - destruct (isDigit c) eqn:D.
    + destruct (spanDigits s) as [d r]. injection H as <- <-.
      destruct (IH d r eq_refl) as [-> A]. split; [reflexivity |].
      simpl. now rewrite D.
    + injection H as <- <-. now split.
Qed.

Lemma digitsValueFrom_acc (s : string) (acc : Z) :
  digitsValueFrom acc s
  = acc * 10 ^ Z.of_nat (String.length s) + digitsValueFrom 0 s.
Proof.
  revert acc. induction s as [| c s IH]; intros acc.
  - simpl. lia.
  - cbn [digitsValueFrom String.length]. rewrite (IH (10 * acc + digitValue c)).
    rewrite (IH (10 * 0 + digitValue c)).
    rewrite Nat2Z.inj_succ, Z.pow_succ_r by lia. lia.
Qed.

Lemma digitsValue_bound (s : string) :
  allDigits s = true -> 0 <= digitsValueFrom 0 s < 10 ^ Z.of_nat (String.length s).
Proof.
  induction s as [| c s IH]; intros H.
  - simpl. lia.
  - simpl in H. apply andb_true_iff in H as [Hc H]. apply OptionRenderersFacts.isDigit_code in Hc.
    specialize (IH H).
    cbn [digitsValueFrom String.length]. rewrite digitsValueFrom_acc.
    rewrite Nat2Z.inj_succ, Z.pow_succ_r by lia. unfold digitValue. nia.
Qed.

(** Digit strings of the same length that write the same number are the
    same. *)
Lemma digits_inj (s1 s2 : string) :
  allDigits s1 = true -> allDigits s2 = true ->
  String.length s1 = String.length s2 ->
  digitsValueFrom 0 s1 = digitsValueFrom 0 s2 -> s1 = s2.
Proof.
  revert s2. induction s1 as [| c1 s1 IH]; intros [| c2 s2] H1 H2 L V;
    try discriminate L; [reflexivity |].
  simpl in H1, H2, L. injection L as L.
  apply andb_true_iff in H1 as [Hc1 H1]. apply andb_true_iff in H2 as [Hc2 H2].
  apply OptionRenderersFacts.isDigit_code in Hc1, Hc2.
  cbn [digitsValueFrom] in V.
  rewrite (digitsValueFrom_acc s1), (digitsValueFrom_acc s2) in V.
  pose proof (digitsValue_bound s1 H1) as B1.
  pose proof (digitsValue_bound s2 H2) as B2.
  rewrite L in V, B1. unfold digitValue in V.
  set (p := 10 ^ Z.of_nat (String.length s2)) in *.
  assert (code c1 = code c2) as C by nia.
  apply code_inj in C. subst c2. f_equal.
  apply IH; try assumption. nia.
Qed.

(** An array index is written by one key only. *)
Lemma arrayIndex_inj (k1 k2 : string) (i : Z) :
  arrayIndex k1 = Some i -> arrayIndex k2 = Some i -> k1 = k2.
Proof.
  assert (forall k j, arrayIndex k = Some j ->
            exists c r, k = String c r /\ allDigits k = true
                        /\ digitsValueFrom 0 k = j
                        /\ (code c = 48 -> r = "")) as Shape.
  { intros k j H. unfold arrayIndex in H.
    destruct k as [| c r]; [discriminate H |].
    destruct (spanDigits (String c r)) as [ds rest] eqn:S.
    apply spanDigits_spec in S as [E A].
    destruct rest; [| discriminate H]. simpl in H.
    assert (String c r = ds) as <-.
    { rewrite E. clear. induction ds as [| x ds IH]; [reflexivity |].
      rewrite OptionRenderersFacts.append_cons. now f_equal. }
    destruct ((code c =? 48) && truthy r) eqn:Z0; [discriminate H |].
    destruct (digitsValue (String c r) <=? 4294967294); [| discriminate H].
    injection H as H. exists c, r. repeat split; try assumption.
    intros C. apply Z.eqb_eq in C. rewrite C in Z0. simpl in Z0.
    now destruct r. }
  assert (forall c r, allDigits (String c r) = true -> code c <> 48 ->
            10 ^ Z.of_nat (String.length r) <= digitsValueFrom 0 (String c r)
            < 10 ^ Z.of_nat (String.length (String c r))) as Size.
  { intros c r A N. pose proof (digitsValue_bound _ A) as B.
    split; [| apply B].
    simpl in A. apply andb_true_iff in A as [Hc A]. apply OptionRenderersFacts.isDigit_code in Hc.
    pose proof (digitsValue_bound _ A) as B'.
    cbn [digitsValueFrom]. rewrite digitsValueFrom_acc. unfold digitValue. nia. }
  intros H1 H2.
  destruct (Shape _ _ H1) as [c1 [r1 [-> [A1 [V1 Z1]]]]].
  destruct (Shape _ _ H2) as [c2 [r2 [-> [A2 [V2 Z2]]]]].
  destruct (Z.eq_dec (code c1) 48) as [E1 | N1];
    destruct (Z.eq_dec (code c2) 48) as [E2 | N2].
  - rewrite (Z1 E1), (Z2 E2). f_equal. apply code_inj. congruence.
  - exfalso. rewrite (Z1 E1) in V1. pose proof (Size _ _ A2 N2) as [S _].
    cbn [digitsValueFrom] in V1. unfold digitValue in V1.
    assert (0 < 10 ^ Z.of_nat (String.length r2)) by (apply Z.pow_pos_nonneg; lia).
    lia.
  - exfalso. rewrite (Z2 E2) in V2. pose proof (Size _ _ A1 N1) as [S _].
    cbn [digitsValueFrom] in V2. unfold digitValue in V2.
    assert (0 < 10 ^ Z.of_nat (String.length r1)) by (apply Z.pow_pos_nonneg; lia).
    lia.
  - apply digits_inj; try assumption; [| congruence].
    pose proof (Size _ _ A1 N1) as [L1 U1]. pose proof (Size _ _ A2 N2) as [L2 U2].
    rewrite V1 in *. rewrite V2 in *.
    cbn [String.length] in *. f_equal.
    destruct (Nat.lt_trichotomy (String.length r1) (String.length r2)) as [C | [C | C]];
      [exfalso | exact C | exfalso].
    + assert (10 ^ Z.of_nat (S (String.length r1)) <= 10 ^ Z.of_nat (String.length r2))
        by (apply Z.pow_le_mono_r; lia). lia.
    + assert (10 ^ Z.of_nat (S (String.length r2)) <= 10 ^ Z.of_nat (String.length r1))
        by (apply Z.pow_le_mono_r; lia). lia.
Qed.

(** ** The array-index properties come sorted *)

Lemma insertByIndex_head (i j : Z) (e : string * Value) (l : list (Z * (string * Value))) :
  j < i -> HdRel Z.lt j (List.map fst l) ->
  HdRel Z.lt j (List.map fst (insertByIndex i e l)).
Proof.
  intros H R. destruct l as [| [j' e'] l]; simpl.
  - now constructor.
  - destruct (i <? j'); simpl; constructor; [exact H |].
    now inversion R.
Qed.

Lemma insertByIndex_sorted (i : Z) (e : string * Value) (l : list (Z * (string * Value))) :
  Sorted Z.lt (List.map fst l) -> ~ In i (List.map fst l) ->
  Sorted Z.lt (List.map fst (insertByIndex i e l)).
Proof.
  induction l as [| [j e'] l IH]; intros S N; simpl.
  - repeat constructor.
  - destruct (i <? j) eqn:C; simpl.
    + constructor; [exact S |]. constructor. now apply Z.ltb_lt.
    + simpl in S, N. apply Sorted_inv in S as [S R].
      apply Z.ltb_ge in C.
      constructor.
      * apply IH; [exact S | tauto].
      * apply insertByIndex_head; [lia | exact R].
Qed.

(** [indexKeyed] pairs each array-index property with its index. *)
Lemma indexKeyed_indices (ps : list (string * Value)) :
  Forall (fun ie => arrayIndex (fst (snd ie)) = Some (fst ie)) (indexKeyed ps)
  /\ (forall ie, In ie (indexKeyed ps) -> In (snd ie) ps).
Proof.
  induction ps as [| [k v] ps [IH1 IH2]]; simpl; [split; [constructor | tauto] |].
  destruct (arrayIndex k) as [i |] eqn:A.
  - split.
    + apply (Permutation_Forall (Permutation_sym (insertByIndex_perm i (k, v) _))).
      constructor; [exact A | exact IH1].
    + intros ie H.
      apply (Permutation_in _ (insertByIndex_perm i (k, v) _)) in H.
      destruct H as [<- | H]; [now left | right; now apply IH2].
  - split; [exact IH1 |]. intros ie H. right. now apply IH2.
Qed.

Lemma indexKeyed_sorted (ps : list (string * Value)) :
  List.NoDup (List.map fst ps) -> Sorted Z.lt (List.map fst (indexKeyed ps)).
Proof.
  induction ps as [| [k v] ps IH]; intros N; simpl; [constructor |].
  simpl in N. apply List.NoDup_cons_iff in N as [Nk N].
  destruct (arrayIndex k) as [i |] eqn:A; [| now apply IH].
  apply insertByIndex_sorted; [now apply IH |].
  intros C. apply in_map_iff in C as [[j [k' v']] [E H]]. simpl in E. subst j.
  destruct (indexKeyed_indices ps) as [F M].
  pose proof (proj1 (List.Forall_forall _ _) F _ H) as A'. simpl in A'.
  apply M in H. simpl in H.
  rewrite (arrayIndex_inj _ _ _ A A') in Nk.
  apply Nk. apply in_map_iff. now exists (k', v').
Qed.

Lemma indexOf_indexKeyed (ps : list (string * Value)) :
  List.map indexOf (List.map snd (indexKeyed ps)) = List.map fst (indexKeyed ps).
Proof.
  destruct (indexKeyed_indices ps) as [F _].
  rewrite List.map_map. induction F as [| [i [k v]] l H F IH]; [reflexivity |].
  simpl. f_equal; [| exact IH]. unfold indexOf. simpl in *. now rewrite H.
Qed.

(** When the blob of a line is a JSON object, the attributes parsed from
    it are its properties with the values they have, in the order of
    [Object.entries]: first the properties whose key is an array index (a
    canonical decimal numeral from 0 to 4294967294), in strictly ascending
    order of the index, then all the others in the order they have in the
    object.  With no array-index key the attributes are the properties in
    the order of the object. *)
Theorem object_blob_attributes (item : CartLine) (ps : list (string * Value)) :
  blobParsesTo item (Obj ps) ->
  (exists indexed,
     List.map pairOf (getAttributes item)
     = indexed ++ List.filter (fun kv => negb (isArrayIndex (fst kv))) ps
     /\ Permutation indexed (List.filter (fun kv => isArrayIndex (fst kv)) ps)
     /\ Sorted Z.lt (List.map indexOf indexed))
  /\ Permutation (List.map pairOf (getAttributes item)) ps
  /\ ((forall kv, In kv ps -> isArrayIndex (fst kv) = false) ->
      List.map pairOf (getAttributes item) = ps).
Proof.
  intros H. pose proof (getAttributes_of_data item _ H) as E. simpl in E.
  rewrite E. split; [| split; [apply ownEntries_perm |]].
  - exists (List.map snd (indexKeyed ps)). split; [reflexivity |].
    split; [apply indexKeyed_perm |].
    rewrite indexOf_indexKeyed. apply indexKeyed_sorted.
    destruct H as [blob [_ P]]. exact (JSON_parse_object_keys _ _ P).
  - intros N. unfold ownEntries. rewrite (indexKeyed_none ps N). simpl.
    apply filter_all. intros kv Hkv. now rewrite (N kv Hkv).
Qed.

Lemma object_blob_attributes_witness :
  blobParsesTo indexedBlobLine
    (Obj (("Size", Str "M") :: ("2", Str "b") :: ("Color", Str "Red")
          :: ("1", Str "a") :: nil))
  /\ List.map pairOf (getAttributes indexedBlobLine)
     = ("1", Str "a") :: ("2", Str "b") :: ("Size", Str "M") :: ("Color", Str "Red")
       :: nil
  /\ exists indexed,
       List.map pairOf (getAttributes indexedBlobLine)
       = indexed ++ ("Size", Str "M") :: ("Color", Str "Red") :: nil
       /\ Permutation indexed (("2", Str "b") :: ("1", Str "a") :: nil)
       /\ Sorted Z.lt (List.map indexOf indexed).
Proof.
  assert (blobParsesTo indexedBlobLine
            (Obj (("Size", Str "M") :: ("2", Str "b") :: ("Color", Str "Red")
                  :: ("1", Str "a") :: nil))) as H.
  { eexists. split; reflexivity. }
  split; [exact H |]. split; [reflexivity |].
  exact (proj1 (object_blob_attributes indexedBlobLine _ H)).
Defined.

(** A blob that is JSON but no object: [null] (whose TypeError in
    [Object.entries] is caught), a number or a boolean give no attribute;
    an array gives one attribute per element, keyed by the index. *)
Theorem non_object_blob_attributes (item : CartLine) (data : Value) :
  blobParsesTo item data ->
  (data = Null \/ (exists b, data = Boolean b) \/ (exists n, data = Num n) ->
   getAttributes item = nil)
  /\ (forall l, data = Arr l ->
        List.map key (getAttributes item) = List.map indexKey (seq 0 (length l))
        /\ List.map value (getAttributes item) = l).
Proof.
  intros H. pose proof (getAttributes_of_data item _ H) as E. split.
  - intros [-> | [[b ->] | [n ->]]]; simpl in E; try exact E;
      now destruct (getAttributes item).
  - intros l ->. simpl in E. split.
    + rewrite <- entriesFrom_keys, <- E, List.map_map. reflexivity.
    + transitivity (List.map snd (entriesFrom 0 l)); [| apply entriesFrom_values].
      rewrite <- E, List.map_map. reflexivity.
Qed.

Lemma non_object_blob_attributes_witness :
  blobParsesTo nullBlobLine Null
  /\ getAttributes nullBlobLine = nil
  /\ blobParsesTo arrayBlobLine (Arr (Str "Anna" :: Boolean true :: nil))
  /\ List.map key (getAttributes arrayBlobLine) = "0" :: "1" :: nil
  /\ List.map value (getAttributes arrayBlobLine) = Str "Anna" :: Boolean true :: nil.
Proof.
  assert (blobParsesTo nullBlobLine Null) as H1 by (eexists; split; reflexivity).
  assert (blobParsesTo arrayBlobLine (Arr (Str "Anna" :: Boolean true :: nil)))
    as H2 by (eexists; split; reflexivity).
  split; [exact H1 |].
  split; [apply (proj1 (non_object_blob_attributes _ _ H1)); now left |].
  split; [exact H2 |].
  exact (proj2 (non_object_blob_attributes _ _ H2) _ eq_refl).
Defined.

End AttributeFacts.

(* ===================================================================== *)
(** * More properties of the number field *)
(* ===================================================================== *)

Module NumberFieldFacts.
Import JS OptionRenderers OptionRenderersFacts.

Lemma nan_compares_false (v bound : Number) :
  isNaN v = true -> gt v bound = false /\ lt v bound = false.
Proof.
  destruct v; try discriminate. intros _. split.
  - unfold gt, SFltb. now destruct bound as [[|] | [|] | | [|] m e].
  - reflexivity.
Qed.

(** The three outcomes of a validation. *)
Lemma validateNumberInput_cases (input : NumberField) :
  (validateNumberInput input = input
   /\ gt (parseInt (fieldValue input)) (ofZ 99) = false
   /\ lt (parseInt (fieldValue input)) (ofZ 0) = false)
  \/ validateNumberInput input
     = {| fieldValue := "99";
          inputMessage := Some ("Auto-corrected to maximum value: 99", "warning") |}
  \/ validateNumberInput input
     = {| fieldValue := "0";
          inputMessage := Some ("Auto-corrected to minimum value: 0", "warning") |}.
Proof.
  unfold validateNumberInput.
  destruct (String.eqb (fieldValue input) "") eqn:E.
  { left. apply String.eqb_eq in E. rewrite E. repeat split; reflexivity. }
  destruct (isNaN (parseInt (fieldValue input))) eqn:N.
  { left. split; [reflexivity |].
    split; [apply (nan_compares_false _ (ofZ 99) N)
           | apply (nan_compares_false _ (ofZ 0) N)]. }
  cbn [orb].
  destruct (gt (parseInt (fieldValue input)) (ofZ 99)) eqn:G; [right; left; reflexivity |].
  destruct (lt (parseInt (fieldValue input)) (ofZ 0)) eqn:L; [right; right; reflexivity |].
  left. repeat split; reflexivity.
Qed.

(** Validation is idempotent: run on its own result it changes nothing
    more, neither the text nor the notice. *)
Theorem validation_is_idempotent (input : NumberField) :
  validateNumberInput (validateNumberInput input) = validateNumberInput input.
Proof.
  destruct (validateNumberInput_cases input) as [[E _] | [E | E]]; rewrite E.
  - exact E.
  - reflexivity.
  - reflexivity.
Qed.

(** After validation the integer read from the field is never above 99 and
    never below 0, whatever was typed; a text that had to be corrected is
    the bound itself and comes with a warning, any other text and its
    notice are left as they were. *)
Theorem validated_value_is_in_range (input : NumberField) :
  gt (parseInt (fieldValue (validateNumberInput input))) (ofZ 99) = false
  /\ lt (parseInt (fieldValue (validateNumberInput input))) (ofZ 0) = false
  /\ (validateNumberInput input = input
      \/ exists bound message,
           (bound = "99" \/ bound = "0")
           /\ validateNumberInput input
              = {| fieldValue := bound; inputMessage := Some (message, "warning") |}).
Proof.
  destruct (validateNumberInput_cases input) as [[E [G L]] | [E | E]]; rewrite E.
  - repeat split; try assumption. now left.
  - repeat split; try reflexivity. right. eexists _, _. split; [now left | reflexivity].
  - repeat split; try reflexivity. right. eexists _, _. split; [now right | reflexivity].
Qed.

End NumberFieldFacts.

(* ===================================================================== *)
(** * Properties of the five renderers *)
(* ===================================================================== *)

Module RenderersFacts.
Import JS JSText OptionRenderers OptionRenderersFacts Renderers.

(** ** Sequencing *)

Lemma andThen_normal {A B : Type} (c : Completion A) (k : A -> Completion B) (b : B) :
  andThen c k = Normal b -> exists a, c = Normal a /\ k a = Normal b.
Proof. destruct c as [a | e]; [| discriminate]. intros H. now exists a. Qed.

(** ** Substrings *)

Lemma stripPrefix_spec (p s r : string) : stripPrefix p s = Some r -> s = p ++ r.
Proof.
  revert s. induction p as [| a p IH]; intros s H.
  - simpl in H. now injection H as ->.
  - destruct s as [| b s]; [discriminate H |]. simpl in H.
    destruct (Ascii.eqb a b) eqn:E; [| discriminate H].
    apply Ascii.eqb_eq in E. subst b. rewrite append_cons. f_equal. now apply IH.
Qed.

Lemma stripPrefix_append (p r : string) : stripPrefix p (p ++ r) = Some r.
Proof.
  induction p as [| a p IH]; [reflexivity |].
  rewrite append_cons. simpl. now rewrite Ascii.eqb_refl.
Qed.

Lemma includes_here (needle rest : string) : includes needle (needle ++ rest) = true.
Proof.
  destruct needle as [| a needle]; [now destruct rest |].
  rewrite append_cons.
  change (match stripPrefix (String a needle) (String a (needle ++ rest)) with
          | Some _ => true
          | None => includes (String a needle) (needle ++ rest)
          end = true).
  rewrite <- append_cons, stripPrefix_append. reflexivity.
Qed.

Lemma endsWith_spec (suffix s : string) :
  endsWith suffix s = true -> exists front, s = front ++ suffix.
Proof.
  induction s as [| c s IH]; simpl; intros H.
  - rewrite orb_false_r in H. apply String.eqb_eq in H. now exists "".
  - apply orb_true_iff in H as [H | H].
    + apply String.eqb_eq in H. now exists "".
    + destruct (IH H) as [front ->]. now exists (String c front).
Qed.

(** A needle that ends one piece of text, runs through the next and begins
    the third. *)
Lemma includes_spliced (a x b post n1 n2 : string) :
  endsWith n1 a = true ->
  (exists r, stripPrefix n2 b = Some r) ->
  includes (n1 ++ x ++ n2) (a ++ x ++ b ++ post) = true.
Proof.
  intros Ha [r Hb]. destruct (endsWith_spec _ _ Ha) as [front ->].
  apply stripPrefix_spec in Hb as ->.
  replace ((front ++ n1) ++ x ++ (n2 ++ r) ++ post)
    with (front ++ (n1 ++ x ++ n2) ++ (r ++ post))
    by (now rewrite !append_assoc).
  apply includes_app, includes_here.
Qed.

Lemma includes_left (needle x y : string) :
  includes needle x = true -> includes needle (x ++ y) = true.
Proof.
  induction x as [| c x IH]; intros H.
  - simpl in H. destruct needle; [now destruct y | discriminate H].
  - rewrite append_cons.
    change (match stripPrefix needle (String c (x ++ y)) with
            | Some _ => true
            | None => includes needle (x ++ y)
            end = true).
    change (match stripPrefix needle (String c x) with
            | Some _ => true
            | None => includes needle x
            end = true) in H.
    destruct (stripPrefix needle (String c x)) as [r |] eqn:P.
    + apply stripPrefix_spec in P. rewrite <- append_cons, P, append_assoc.
      now rewrite stripPrefix_append.
    + destruct (stripPrefix needle (String c (x ++ y))); [reflexivity | now apply IH].
Qed.

Ltac find_spliced :=
  repeat first
    [ apply includes_spliced; [vm_compute; reflexivity | eexists; vm_compute; reflexivity]
    | apply includes_app ].

(** ** The wrapping step *)

Lemma unwrapped_when_unresolved (html : string) (option : Option) (allOptions : list Option) :
  ~ resolves option allOptions ->
  wrapWithConditional html option allOptions = html.
Proof.
  intros N. unfold wrapWithConditional.
  destruct (dependOnOptionId option) as [| | d] eqn:D; try reflexivity.
  simpl. destruct (truthy d) eqn:T; [| reflexivity]. simpl.
  destruct (String.eqb (id option) d) eqn:S; [reflexivity |].
  destruct (List.find _ allOptions) as [radio |] eqn:F; [| reflexivity].
  exfalso. apply N.
  apply find_some in F as [Hin Hp].
  apply andb_true_iff in Hp as [Hid Hty].
  apply String.eqb_eq in Hid, Hty. apply String.eqb_neq in S.
  exists radio, d. repeat split; try assumption.
  - now apply truthy_nonempty.
  - congruence.
Qed.

Lemma routed_unresolved (html : string) (option : RenderOption)
      (allOptions : list RenderOption) :
  ~ resolves (details option) (List.map details allOptions) ->
  routed html option allOptions = html.
Proof.
  intros N. unfold routed.
  destruct (isTruthy (dependOnOptionId (details option))); [| reflexivity].
  now apply unwrapped_when_unresolved.
Qed.

Lemma routed_resolved (html : string) (option : RenderOption)
      (allOptions : list RenderOption) :
  resolves (details option) (List.map details allOptions) ->
  routed html option allOptions
  = conditionalOpen (toString (dependOnOptionId (details option)))
                    (toString (showWhenValue (details option)))
    ++ html ++ conditionalClose.
Proof.
  intros R. unfold routed. rewrite (wrap_resolved html _ _ R).
  destruct R as [radio [d [_ [D [Hd _]]]]]. rewrite D. simpl.
  apply truthy_nonempty in Hd. now rewrite Hd.
Qed.

Lemma routed_without (html : string) (option : RenderOption)
      (allOptions : list RenderOption) :
  routed html (withoutDependency option) allOptions = html.
Proof. reflexivity. Qed.

Lemma routed_shape (html : string) (option : RenderOption)
      (allOptions : list RenderOption) :
  routed html option allOptions = html
  \/ exists front, routed html option allOptions = front ++ html ++ conditionalClose.
Proof.
  unfold routed, wrapWithConditional.
  destruct (isTruthy (dependOnOptionId (details option))); [| now left].
  simpl.
  destruct (strictEq _ _); [now left |].
  destruct (List.find _ _); [| now left].
  right. eexists. reflexivity.
Qed.

Lemma includes_routed (needle html : string) (option : RenderOption)
      (allOptions : list RenderOption) :
  includes needle html = true ->
  includes needle (routed html option allOptions) = true.
Proof.
  intros H. destruct (routed_shape html option allOptions) as [-> | [front ->]];
    [exact H |].
  apply includes_app. now apply includes_left.
Qed.

(** ** The fragments *)

Lemma giftText_resolves :
  resolves (details giftText)
           (List.map details (priced giftRadio None :: giftText :: nil)).
Proof.
  exists giftRadio, "opt-gift".
  repeat split; try reflexivity; try discriminate. now left.
Qed.

Lemma orphanText_unresolved :
  ~ resolves (details orphanText)
             (List.map details (priced giftRadio None :: orphanText :: nil)).
Proof.
  intros [radio [d [Hin [D [_ [Hid [_ Hne]]]]]]].
  injection D as <-.
  destruct Hin as [<- | [<- | []]]; [discriminate Hid | now apply Hne].
Qed.

Lemma textHtml_without (option : RenderOption) :
  textHtml (withoutDependency option) = textHtml option.
Proof. reflexivity. Qed.

Lemma numberHtml_without (option : RenderOption) :
  numberHtml (withoutDependency option) = numberHtml option.
Proof. reflexivity. Qed.

Lemma dropdownHtml_without (option : RenderOption) :
  dropdownHtml (withoutDependency option) = dropdownHtml option.
Proof. reflexivity. Qed.

Lemma radioHtml_without (option : RenderOption) :
  radioHtml (withoutDependency option) = radioHtml option.
Proof. reflexivity. Qed.

Lemma thumbnailHtml_without (option : RenderOption) :
  thumbnailHtml (withoutDependency option) = thumbnailHtml option.
Proof. reflexivity. Qed.

(** The renderers of the table, one by one. *)
Lemma rendererFor_cases (type : string)
      (render : RenderOption -> list RenderOption -> Completion string) :
  rendererFor type = Some render ->
  exists fragment : RenderOption -> Completion string,
    (forall option, fragment (withoutDependency option) = fragment option)
    /\ (forall option allOptions,
          render option allOptions
          = let! html := fragment option in Normal (routed html option allOptions))
    /\ ((type = "text" /\ fragment = (fun option => Normal (textHtml option)))
        \/ (type = "number" /\ fragment = (fun option => Normal (numberHtml option)))
        \/ (type = "dropdown" /\ fragment = dropdownHtml)
        \/ (type = "radio" /\ fragment = radioHtml)
        \/ (type = "dropdown_thumbnail" /\ fragment = thumbnailHtml)).
Proof.
  unfold rendererFor. intros H.
  destruct (String.eqb type "text") eqn:T.
  { apply String.eqb_eq in T. injection H as <-.
    exists (fun option => Normal (textHtml option)). repeat split; auto. }
  destruct (String.eqb type "dropdown") eqn:D.
  { apply String.eqb_eq in D. injection H as <-.
    exists dropdownHtml. repeat split; auto. }
  destruct (String.eqb type "dropdown_thumbnail") eqn:U.
  { apply String.eqb_eq in U. injection H as <-.
    exists thumbnailHtml. repeat split; auto 6. }
  destruct (String.eqb type "radio") eqn:R.
  { apply String.eqb_eq in R. injection H as <-.
    exists radioHtml. repeat split; auto 6. }
  destruct (String.eqb type "number") eqn:N; [| discriminate H].
  apply String.eqb_eq in N. injection H as <-.
  exists (fun option => Normal (numberHtml option)). repeat split; auto.
Qed.

(** A dependency changes nothing of what a renderer returns but the hidden
    container around it: for each of the five renderers, an option whose
    dependency does not resolve is rendered as the same option without
    dependency, and an option whose dependency resolves is rendered as
    that fragment inside the [conditional-option] container; an exception
    thrown while the fragment is built is thrown in all three cases. *)
Theorem dependency_only_adds_the_wrapper
  (type : string) (render : RenderOption -> list RenderOption -> Completion string)
  (option : RenderOption) (allOptions : list RenderOption) :
  rendererFor type = Some render ->
  (~ resolves (details option) (List.map details allOptions) ->
   render option allOptions = render (withoutDependency option) allOptions)
  /\ (resolves (details option) (List.map details allOptions) ->
      render option allOptions
      = let! html := render (withoutDependency option) allOptions in
        Normal (conditionalOpen (toString (dependOnOptionId (details option)))
                                (toString (showWhenValue (details option)))
                ++ html ++ conditionalClose)).
Proof.
  intros H. destruct (rendererFor_cases _ _ H) as [fragment [W [E _]]].
  rewrite !E, W. split; intros R.
  - destruct (fragment option) as [html | e]; [| reflexivity]. simpl.
    now rewrite routed_unresolved, routed_without.
  - destruct (fragment option) as [html | e]; [| reflexivity]. simpl.
    now rewrite routed_resolved, routed_without.
Qed.

Lemma dependency_only_adds_the_wrapper_witness :
  rendererFor "text"
  = Some (fun option allOptions => Normal (renderTextOption option allOptions))
  /\ ~ resolves (details orphanText)
               (List.map details (priced giftRadio None :: orphanText :: nil))
  /\ Normal (renderTextOption orphanText (priced giftRadio None :: orphanText :: nil))
     = Normal (renderTextOption (withoutDependency orphanText)
                                (priced giftRadio None :: orphanText :: nil))
  /\ resolves (details giftText)
              (List.map details (priced giftRadio None :: giftText :: nil))
  /\ Normal (renderTextOption giftText (priced giftRadio None :: giftText :: nil))
     = Normal (conditionalOpen "opt-gift" "Yes"
               ++ renderTextOption (withoutDependency giftText)
                                   (priced giftRadio None :: giftText :: nil)
               ++ conditionalClose).
Proof.
  split; [reflexivity |].
  split; [exact orphanText_unresolved |].
  split.
  { exact (proj1 (dependency_only_adds_the_wrapper
                    "text" _ orphanText (priced giftRadio None :: orphanText :: nil)
                    eq_refl) orphanText_unresolved). }
  split; [exact giftText_resolves |].
  exact (proj2 (dependency_only_adds_the_wrapper
                  "text" _ giftText (priced giftRadio None :: giftText :: nil)
                  eq_refl) giftText_resolves).
Defined.

Ltac open_binds H :=
  repeat
    (let a := fresh "a" in
     let E := fresh "E" in
     apply andThen_normal in H as [a [E H]]);
  injection H as <-.

Lemma textHtml_attrs (option : RenderOption) :
  includes (fieldNameAttr (name (details option))) (textHtml option) = true
  /\ includes (optionIdAttr (id (details option))) (textHtml option) = true.
Proof. unfold fieldNameAttr, optionIdAttr, textHtml. split; find_spliced. Qed.

Lemma numberHtml_attrs (option : RenderOption) :
  includes (fieldNameAttr (name (details option))) (numberHtml option) = true
  /\ includes (optionIdAttr (id (details option))) (numberHtml option) = true.
Proof. unfold fieldNameAttr, optionIdAttr, numberHtml. split; find_spliced. Qed.

Lemma dropdownHtml_attrs (option : RenderOption) (html : string) :
  dropdownHtml option = Normal html ->
  includes (fieldNameAttr (name (details option))) html = true
  /\ includes (optionIdAttr (id (details option))) html = true.
Proof.
  unfold dropdownHtml. intros H. open_binds H.
  unfold fieldNameAttr, optionIdAttr. split; find_spliced.
Qed.

Lemma radioHtml_attrs (option : RenderOption) (html : string) :
  radioHtml option = Normal html ->
  includes (optionIdAttr (id (details option))) html = true.
Proof.
  unfold radioHtml. intros H. open_binds H.
  unfold optionIdAttr. find_spliced.
Qed.

Lemma thumbnailHtml_attrs (option : RenderOption) (html : string) :
  thumbnailHtml option = Normal html ->
  includes (fieldNameAttr (name (details option))) html = true
  /\ includes (optionIdAttr (id (details option))) html = true.
Proof.
  unfold thumbnailHtml. intros H. open_binds H.
  unfold fieldNameAttr, optionIdAttr. split; find_spliced.
Qed.

Lemma radioItem_attr (o : Option) (uniqueId : string) (value : Value) (i : nat)
      (piece : string) :
  radioItem o uniqueId value i = Normal piece ->
  includes (fieldNameAttr (name o)) piece = true.
Proof.
  unfold radioItem. intros H. open_binds H.
  unfold fieldNameAttr. find_spliced.
Qed.

Lemma radioHtml_field (option : RenderOption) (html : string) (v : Value) (l : list Value) :
  parsedValues (details option) = Normal (Arr (v :: l)) ->
  radioHtml option = Normal html ->
  includes (fieldNameAttr (name (details option))) html = true.
Proof.
  unfold radioHtml. intros P H. rewrite P in H. simpl in H.
  open_binds H. open_binds E.
  apply radioItem_attr in E0.
  repeat first [ apply includes_left; apply includes_left; exact E0
               | apply includes_app ].
Qed.

(** Every fragment carries the id of its option, and the control in it has
    the form field name [properties[<option name>]] under which the cart
    takes the selection up as a line-item property; for a radio option the
    name is on the radio inputs, so it is there once a value is declared. *)
Theorem fragment_carries_id_and_field_name
  (type : string) (render : RenderOption -> list RenderOption -> Completion string)
  (option : RenderOption) (allOptions : list RenderOption) (out : string) :
  rendererFor type = Some render ->
  render option allOptions = Normal out ->
  includes (optionIdAttr (id (details option))) out = true
  /\ (type <> "radio" ->
      includes (fieldNameAttr (name (details option))) out = true)
  /\ (type = "radio" ->
      (exists v l, parsedValues (details option) = Normal (Arr (v :: l))) ->
      includes (fieldNameAttr (name (details option))) out = true).
Proof.
  intros H Hout. destruct (rendererFor_cases _ _ H) as [fragment [_ [E C]]].
  rewrite E in Hout. apply andThen_normal in Hout as [html [F Hout]].
  injection Hout as <-.
  destruct C as [[-> ->] | [[-> ->] | [[-> ->] | [[-> ->] | [-> ->]]]]].
  - injection F as <-. destruct (textHtml_attrs option) as [A B].
    split; [now apply includes_routed |].
    split; [intros _; now apply includes_routed | discriminate].
  - injection F as <-. destruct (numberHtml_attrs option) as [A B].
    split; [now apply includes_routed |].
    split; [intros _; now apply includes_routed | discriminate].
  - destruct (dropdownHtml_attrs option html F) as [A B].
    split; [now apply includes_routed |].
    split; [intros _; now apply includes_routed | discriminate].
  - split; [apply includes_routed; now apply radioHtml_attrs |].
    split; [congruence |].
    intros _ [v [l P]]. apply includes_routed. exact (radioHtml_field _ _ _ _ P F).
  - destruct (thumbnailHtml_attrs option html F) as [A B].
    split; [now apply includes_routed |].
    split; [intros _; now apply includes_routed | discriminate].
Qed.

Lemma fragment_carries_id_and_field_name_witness :
  rendererFor "radio" = Some renderRadioOption
  /\ (exists v l, parsedValues giftRadio = Normal (Arr (v :: l)))
  /\ exists out,
       renderRadioOption (priced giftRadio None) (priced giftRadio None :: nil)
       = Normal out
       /\ includes (optionIdAttr "opt-gift") out = true
       /\ includes (fieldNameAttr "Gift") out = true.
Proof.
  assert (exists v l, parsedValues giftRadio = Normal (Arr (v :: l))) as P
    by (eexists _, _; reflexivity).
  split; [reflexivity |]. split; [exact P |].
  eexists. split; [reflexivity |].
  destruct (fragment_carries_id_and_field_name
              "radio" renderRadioOption (priced giftRadio None)
              (priced giftRadio None :: nil) _ eq_refl eq_refl) as [A [_ B]].
  split; [exact A | exact (B eq_refl P)].
Defined.

(** ** What the renderers throw *)

Lemma only_normal {A : Type} (a : A) : onlyTypeError (Normal a).
Proof. intros e H. discriminate H. Qed.

Lemma only_andThen {A B : Type} (c : Completion A) (k : A -> Completion B) :
  onlyTypeError c -> (forall a, onlyTypeError (k a)) -> onlyTypeError (andThen c k).
Proof.
  intros Hc Hk e H. destruct c as [a | e']; simpl in H.
  - exact (Hk a e H).
  - injection H as <-. now apply Hc.
Qed.

Lemma only_get (k : string) (v : Value) : onlyTypeError (get k v).
Proof.
  intros e H. destruct v; simpl in H; try discriminate H.
  - now injection H.
  - destruct (ownProperty k properties); discriminate H.
Qed.

Lemma Value_nested_ind (P : Value -> Prop) :
  P Null -> (forall b, P (Boolean b)) -> (forall n, P (Num n)) ->
  (forall s, P (Str s)) ->
  (forall l, List.Forall P l -> P (Arr l)) ->
  (forall ps, P (Obj ps)) ->
  forall v, P v.
Proof.
  intros HNull HBool HNum HStr HArr HObj.
  fix IH 1. intros v.
  destruct v as [| b | n | s | l | ps];
    [apply HNull | apply HBool | apply HNum | apply HStr | | apply HObj].
  apply HArr. revert l. fix IHl 1.
  intros [| x l]; constructor; [apply IH | apply IHl].
Qed.

Lemma only_valueToString (v : Value) : onlyTypeError (valueToString v).
Proof.
  induction v as [| b | n | s | l Hl | ps] using Value_nested_ind;
    try (intros e H; simpl in H; try destruct b; discriminate H).
  - simpl.
    match goal with
    | |- onlyTypeError (?join true l) =>
        assert (forall first, onlyTypeError (join first l)) as A; [| apply A]
    end.
    induction Hl as [| x l Hx _ IHl]; intros first.
    + apply only_normal.
    + apply only_andThen.
      * destruct x; try apply only_normal; exact Hx.
      * intros sx. apply only_andThen; [apply IHl |]. intros rest. apply only_normal.
  - intros e H. simpl in H.
    destruct (ownProperty "toString" ps); [now injection H | discriminate H].
Qed.

Lemma only_toStringAny (a : Any) : onlyTypeError (toStringAny a).
Proof. destruct a; [apply only_normal | apply only_valueToString]. Qed.

Lemma only_labelOf (value : Value) : onlyTypeError (labelOf value).
Proof. apply only_andThen; [apply only_get | intros a; apply only_toStringAny]. Qed.

Ltac only_type_error :=
  repeat first
    [ apply only_normal | apply only_get | apply only_toStringAny
    | apply only_labelOf
    | apply only_andThen; [| intros ?]
    | match goal with |- onlyTypeError (if ?b then _ else _) => destruct b end ].

Lemma only_mapJoinFrom (f : Value -> nat -> Completion string) (i : nat) (l : list Value) :
  (forall v j, onlyTypeError (f v j)) -> onlyTypeError (mapJoinFrom f i l).
Proof.
  intros Hf. revert i. induction l as [| v l IH]; intros i; simpl.
  - apply only_normal.
  - apply only_andThen; [apply Hf |]. intros piece.
    apply only_andThen; [apply IH |]. intros rest. apply only_normal.
Qed.

Lemma mapJoinFrom_null (f : Value -> nat -> Completion string) (i : nat) (l : list Value) :
  (forall v j, onlyTypeError (f v j)) ->
  (forall j, f Null j = Throw TypeError) ->
  In Null l ->
  mapJoinFrom f i l = Throw TypeError.
Proof.
  intros Hf Hn. revert i. induction l as [| v l IH]; intros i Hin; [destruct Hin |].
  simpl. destruct Hin as [-> | Hin].
  - now rewrite Hn.
  - destruct (f v i) as [piece | e] eqn:F; simpl.
    + now rewrite (IH (S i) Hin).
    + now rewrite (Hf v i e F).
Qed.

Lemma only_items :
  (forall v j, onlyTypeError (dropdownNativeOption v j))
  /\ (forall v j, onlyTypeError (dropdownCustomOption v j))
  /\ (forall o u v j, onlyTypeError (radioItem o u v j))
  /\ (forall v j, onlyTypeError (thumbnailNativeOption v j))
  /\ (forall v j, onlyTypeError (thumbnailCustomOption v j)).
Proof.
  repeat split; intros;
    unfold dropdownNativeOption, dropdownCustomOption, radioItem,
      thumbnailNativeOption, thumbnailCustomOption, priceOrZeroOf;
    only_type_error.
Qed.

(** The three fragments that read the values, at their first [map]. *)
Lemma values_fragment_cases (fragment : RenderOption -> Completion string) :
  fragment = dropdownHtml \/ fragment = radioHtml \/ fragment = thumbnailHtml ->
  exists (first : RenderOption -> Value -> nat -> Completion string),
    (forall option v j, onlyTypeError (first option v j))
    /\ (forall option j, first option Null j = Throw TypeError)
    /\ (forall option e,
          parsedValues (details option) = Throw e -> fragment option = Throw e)
    /\ (forall option values,
          parsedValues (details option) = Normal values ->
          forall e, mapJoin (first option) values = Throw e ->
                    fragment option = Throw e)
    /\ (forall option,
          parsedValues (details option) = Normal (Arr nil) ->
          exists html, fragment option = Normal html).
Proof.
  destruct only_items as [I1 [I2 [I3 [I4 I5]]]].
  intros [-> | [-> | ->]].
  - exists (fun _ => dropdownNativeOption). repeat split; auto.
    + intros option e P. unfold dropdownHtml. now rewrite P.
    + intros option values P e M. unfold dropdownHtml. rewrite P. simpl. now rewrite M.
    + intros option P. unfold dropdownHtml. rewrite P. simpl. eexists. reflexivity.
  - exists (fun option =>
              radioItem (details option)
                        ("radio_" ++ replaceDashes (id (details option)))).
    repeat split; auto.
    + intros option e P. unfold radioHtml. now rewrite P.
    + intros option values P e M. unfold radioHtml. rewrite P. simpl. now rewrite M.
    + intros option P. unfold radioHtml. rewrite P. simpl. eexists. reflexivity.
  - exists (fun _ => thumbnailNativeOption). repeat split; auto.
    + intros option e P. unfold thumbnailHtml. now rewrite P.
    + intros option values P e M. unfold thumbnailHtml. rewrite P. simpl. now rewrite M.
    + intros option P. unfold thumbnailHtml. rewrite P. simpl. eexists. reflexivity.
Qed.

(** The renderers of text and number options always return a fragment.  The
    three that read [option.values] return one when the values are missing
    or an empty array, and catch nothing: a values text that is not JSON
    makes them throw the SyntaxError of [JSON.parse], and a values text
    that is no array, or an array with a [null] in it, a TypeError. *)
Theorem values_decide_failure
  (type : string) (render : RenderOption -> list RenderOption -> Completion string)
  (option : RenderOption) (allOptions : list RenderOption) :
  rendererFor type = Some render ->
  (readsValues type = false -> exists out, render option allOptions = Normal out)
  /\ (readsValues type = true ->
      (isTruthy (values (details option)) = false ->
       exists out, render option allOptions = Normal out)
      /\ (forall text,
            values (details option) = str text -> text <> "" ->
            match JSON_parse text with
            | Throw e => render option allOptions = Throw e
            | Normal (Arr nil) => exists out, render option allOptions = Normal out
            | Normal (Arr l) =>
                In Null l -> render option allOptions = Throw TypeError
            | Normal _ => render option allOptions = Throw TypeError
            end)).
Proof.
  intros H. destruct (rendererFor_cases _ _ H) as [fragment [_ [E C]]].
  split.
  - intros R. rewrite E.
    destruct C as [[-> ->] | [[-> ->] | [[-> _] | [[-> _] | [-> _]]]]];
      try discriminate R; simpl; eexists; reflexivity.
  - intros R.
    assert (fragment = dropdownHtml \/ fragment = radioHtml \/ fragment = thumbnailHtml)
      as F.
    { destruct C as [[-> _] | [[-> _] | [[_ ->] | [[_ ->] | [_ ->]]]]];
        try discriminate R; auto. }
    destruct (values_fragment_cases fragment F) as [first [O [N [T [M Z]]]]].
    assert (forall html, fragment option = Normal html ->
                         exists out, render option allOptions = Normal out) as Ok.
    { intros html Fh. rewrite E, Fh. simpl. eexists. reflexivity. }
    assert (forall e, fragment option = Throw e -> render option allOptions = Throw e)
      as Ko.
    { intros e Fe. rewrite E, Fe. reflexivity. }
    split.
    + intros V. destruct (Z option) as [html Fh]; [| exact (Ok html Fh)].
      unfold parsedValues. destruct (values (details option)); try reflexivity.
      simpl in V. now rewrite V.
    + intros text V Ht.
      assert (parsedValues (details option) = JSON_parse text) as P.
      { unfold parsedValues. rewrite V.
        apply truthy_nonempty in Ht. now rewrite Ht. }
      destruct (JSON_parse text) as [v | e] eqn:J; [| now apply Ko, T].
      destruct v as [ | b | n | s | l | ps];
        try (apply Ko, (M option _ P); reflexivity).
      destruct l as [| v l].
      * destruct (Z option P) as [html Fh]. exact (Ok html Fh).
      * intros Hin. apply Ko, (M option _ P).
        change (mapJoinFrom (first option) 0 (v :: l) = Throw TypeError).
        apply mapJoinFrom_null; auto.
Qed.

Lemma values_decide_failure_witness :
  rendererFor "dropdown" = Some renderDropdownOption
  /\ readsValues "dropdown" = true
  /\ JSON_parse "[{label: S}]" = Throw SyntaxError
  /\ renderDropdownOption brokenDropdown (brokenDropdown :: nil) = Throw SyntaxError
  /\ In Null (Obj (("id", Str "v1") :: ("label", Str "S") :: nil) :: Null :: nil)
  /\ renderDropdownOption holedDropdown (holedDropdown :: nil) = Throw TypeError.
Proof.
  split; [reflexivity |]. split; [reflexivity |]. split; [reflexivity |].
  pose proof (proj2 (values_decide_failure "dropdown" renderDropdownOption
                       brokenDropdown (brokenDropdown :: nil) eq_refl) eq_refl)
    as [_ B].
  pose proof (proj2 (values_decide_failure "dropdown" renderDropdownOption
                       holedDropdown (holedDropdown :: nil) eq_refl) eq_refl)
    as [_ N].
  split; [exact (B "[{label: S}]" eq_refl ltac:(discriminate)) |].
  assert (In Null (Obj (("id", Str "v1") :: ("label", Str "S") :: nil) :: Null :: nil))
    as Hin by (right; left; reflexivity).
  split; [exact Hin |].
  exact (N _ eq_refl ltac:(discriminate) Hin).
Defined.

End RenderersFacts.

(* ===================================================================== *)
(** * Properties of the supply of option sets *)
(* ===================================================================== *)

Module ActiveOptionsFacts.
Import JS JSText OptionRenderersFacts ActiveOptions.
Local Open Scope list_scope.

Lemma arrayIncludes_In (l : list string) (x : string) :
  arrayIncludes l x = true <-> In x l.
Proof.
  unfold arrayIncludes. rewrite existsb_exists. split.
  - intros [y [Hy E]]. apply String.eqb_eq in E. now subst y.
  - intros H. exists x. split; [exact H | apply String.eqb_refl].
Qed.

(** The tags a set asks for: none when the column is [null] or empty. *)
Lemma matchesTags_spec (tagsArray : list string) (optionSet : ProductOptionSet) :
  matchesTags tagsArray optionSet = true <->
  applyToAll optionSet = true
  \/ exists required tag,
       productTags optionSet = Some required /\ required <> ""
       /\ In tag (tagList required) /\ In tag tagsArray.
Proof.
  unfold matchesTags.
  destruct (applyToAll optionSet); [tauto |].
  destruct (productTags optionSet) as [required |].
  - destruct (truthy required) eqn:T.
    + rewrite existsb_exists. split.
      * intros [tag [Hin Hm]]. right. exists required, tag.
        apply arrayIncludes_In in Hm. apply truthy_nonempty in T. auto.
      * intros [C | [r [tag [E [_ [Hin Hm]]]]]]; [discriminate C |].
        injection E as <-. exists tag. split; [exact Hin |].
        now apply arrayIncludes_In.
    + split; [discriminate |].
      intros [C | [r [tag [E [N _]]]]]; [discriminate C |].
      injection E as <-. apply truthy_nonempty in N. congruence.
  - split; [discriminate |].
    intros [C | [r [tag [E _]]]]; discriminate.
Qed.

Lemma filter_filter {A : Type} (f g : A -> bool) (l : list A) :
  List.filter g (List.filter f l) = List.filter (fun x => f x && g x) l.
Proof.
  induction l as [| x l IH]; [reflexivity |].
  simpl. destruct (f x); simpl; [destruct (g x) |]; now rewrite IH.
Qed.






(** With product tags in the request, a set is in the answer exactly when
    it is an active set of the shop and either applies to all products or
    has, among its own comma-separated tags, one that equals a tag of the
    request, white space around the tags put aside; the answer keeps the
    order of the table. *)
Theorem loader_with_tags (shopName tags : string) (rows : list ProductOptionSet) :
  shopName <> "" -> tags <> "" ->
  exists answer,
    loader (Some shopName) (Some tags) (Some rows) = OptionSets answer
    /\ (exists keep, answer = List.filter keep rows)
    /\ (forall optionSet,
          In optionSet answer <->
          In optionSet rows /\ shop optionSet = shopName /\ active optionSet = true
          /\ (applyToAll optionSet = true
              \/ exists required tag,
                   productTags optionSet = Some required /\ required <> ""
                   /\ In tag (List.map trim (splitComma required))
                   /\ In tag (List.map trim (splitComma tags)))).
Proof.
  intros Hs Ht. unfold loader.
  apply truthy_nonempty in Hs, Ht. rewrite Hs, Ht.
  eexists. split; [reflexivity |]. unfold findManyActive. split.
  - eexists. apply filter_filter.
  - intros optionSet. rewrite !filter_In, matchesTags_spec, andb_true_iff.
    rewrite String.eqb_eq. unfold tagList. tauto.
Qed.

Lemma loader_with_tags_witness :
  "a.myshopify.com" <> "" /\ " sale ,new" <> ""
  /\ loader (Some "a.myshopify.com") (Some " sale ,new") (Some sampleTable)
     = OptionSets
         (row "Everything" "a.myshopify.com" true true None
          :: row "Gifts" "a.myshopify.com" true false (Some "gift, sale") :: nil).
Proof.
  split; [discriminate |]. split; [discriminate |].
  destruct (loader_with_tags "a.myshopify.com" " sale ,new" sampleTable
              ltac:(discriminate) ltac:(discriminate)) as [answer [E _]].
  rewrite E. injection E as <-. reflexivity.
Defined.

(** ** The tags column *)

Lemma splitComma_plain (a : string) :
  hasNoComma a = true -> splitComma a = a :: nil.
Proof.
  induction a as [| c a IH]; [reflexivity |].
  simpl. intros H. apply andb_true_iff in H as [Hc Ha].
  apply negb_true_iff in Hc. rewrite Hc, (IH Ha). reflexivity.
Qed.

Lemma splitComma_head (a rest : string) :
  hasNoComma a = true ->
  splitComma (a ++ "," ++ rest)%string = a :: splitComma rest.
Proof.
  induction a as [| c a IH]; intros H.
  - reflexivity.
  - rewrite append_cons. simpl in *. apply andb_true_iff in H as [Hc Ha].
    apply negb_true_iff in Hc. rewrite Hc, (IH Ha). reflexivity.
Qed.

Lemma splitComma_joinComma (tags : list string) :
  tags <> nil ->
  (forall tag, In tag tags -> hasNoComma tag = true) ->
  splitComma (joinComma tags) = tags.
Proof.
  induction tags as [| a tags IH]; intros Hn Hc; [congruence |].
  destruct tags as [| b tags].
  - simpl. apply splitComma_plain, Hc. now left.
  - change (joinComma (a :: b :: tags)) with (a ++ "," ++ joinComma (b :: tags))%string.
    rewrite splitComma_head by (apply Hc; now left).
    f_equal. apply IH; [discriminate |]. intros tag Ht. apply Hc. now right.
Qed.

Lemma joinComma_nonempty (tags : list string) :
  (exists tag, In tag tags /\ tag <> "") -> joinComma tags <> "".
Proof.
  induction tags as [| a tags IH]; intros [tag [Hin Hne]]; [destruct Hin |].
  destruct tags as [| b tags].
  - simpl. destruct Hin as [-> | []]. exact Hne.
  - change (joinComma (a :: b :: tags)) with (a ++ "," ++ joinComma (b :: tags))%string.
    destruct a; discriminate.
Qed.

(** The tags of a set survive being saved and opened again for editing:
    the column written by the save is read back as the same list, provided
    no tag holds a comma and the list is not the single empty tag (which is
    saved as an empty text and read back as no tag). *)
Theorem tags_round_trip (tags : list string) :
  (forall tag, In tag tags -> hasNoComma tag = true) ->
  tags <> "" :: nil ->
  editedTags (storedTags tags) = tags.
Proof.
  intros Hc Hn. destruct tags as [| a tags]; [reflexivity |].
  unfold storedTags, editedTags.
  assert (joinComma (a :: tags) <> "") as J.
  { destruct tags as [| b tags].
    - simpl. intros ->. now apply Hn.
    - change (joinComma (a :: b :: tags)) with (a ++ "," ++ joinComma (b :: tags))%string.
      destruct a; discriminate. }
  apply truthy_nonempty in J. rewrite J.
  apply splitComma_joinComma; [discriminate | exact Hc].
Qed.

Lemma tags_round_trip_witness :
  (forall tag, In tag ("gift" :: "summer sale" :: nil) -> hasNoComma tag = true)
  /\ storedTags ("gift" :: "summer sale" :: nil) = Some "gift,summer sale"
  /\ editedTags (Some "gift,summer sale") = "gift" :: "summer sale" :: nil.
Proof.
  assert (forall tag, In tag ("gift" :: "summer sale" :: nil) -> hasNoComma tag = true)
    as H by (intros tag [<- | [<- | []]]; reflexivity).
  split; [exact H |]. split; [reflexivity |].
  exact (tags_round_trip ("gift" :: "summer sale" :: nil) H ltac:(discriminate)).
Defined.

(** Saving and serving fit together: a set saved for a list of non-empty
    tags without commas, and not for all products, is served for a product
    exactly when one of those tags is, white space around it put aside, a
    tag of the product. *)
Theorem saved_tags_are_served
  (tags : list string) (optionSet : ProductOptionSet) (productTagsParam : string) :
  tags <> nil ->
  (forall tag, In tag tags -> tag <> "" /\ hasNoComma tag = true) ->
  productTags optionSet = storedTags tags ->
  applyToAll optionSet = false ->
  (matchesTags (tagList productTagsParam) optionSet = true <->
   exists tag, In tag tags /\ In (trim tag) (tagList productTagsParam)).
Proof.
  intros Hn Ht Hp Ha.
  assert (productTags optionSet = Some (joinComma tags)) as P
    by (rewrite Hp; now destruct tags).
  assert (joinComma tags <> "") as J.
  { apply joinComma_nonempty. destruct tags as [| a tags]; [congruence |].
    exists a. split; [now left | apply Ht; now left]. }
  assert (tagList (joinComma tags) = List.map trim tags) as L.
  { unfold tagList. rewrite splitComma_joinComma; [reflexivity | exact Hn |].
    intros tag Hin. now apply Ht. }
  rewrite matchesTags_spec, Ha, P. split.
  - intros [C | [required [tag [E [_ [Hin Hm]]]]]]; [discriminate C |].
    injection E as <-. rewrite L in Hin.
    apply in_map_iff in Hin as [t [<- Hin]]. now exists t.
  - intros [t [Hin Hm]]. right. exists (joinComma tags), (trim t).
    repeat split; try assumption. rewrite L. now apply in_map.
Qed.

Lemma saved_tags_are_served_witness :
  storedTags ("gift" :: "sale" :: nil) = Some "gift,sale"
  /\ (matchesTags (tagList "new, sale ")
                  (row "Gifts" "a.myshopify.com" true false (Some "gift,sale")) = true
      <-> exists tag, In tag ("gift" :: "sale" :: nil)
                      /\ In (trim tag) (tagList "new, sale ")).
Proof.
  split; [reflexivity |].
  apply (saved_tags_are_served ("gift" :: "sale" :: nil)); try reflexivity;
    [discriminate |].
  intros tag [<- | [<- | []]]; split; try reflexivity; discriminate.
Defined.

End ActiveOptionsFacts.

(* ===================================================================== *)
(** * Properties of the tag picker *)
(* ===================================================================== *)

Module TagPickerFacts.
Import JS JSText OptionRenderersFacts TagPicker.
Local Open Scope list_scope.

Lemma includes_In (l : list string) (x : string) :
  arrayIncludes l x = true <-> In x l.
Proof.
  unfold arrayIncludes. rewrite existsb_exists. split.
  - intros [y [Hy E]]. apply String.eqb_eq in E. now subst y.
  - intros H. exists x. split; [exact H | apply String.eqb_refl].
Qed.

Lemma filter_absent (t : string) (l : list string) :
  ~ In t l -> List.filter (fun tag => negb (String.eqb tag t)) l = l.
Proof.
  induction l as [| x l IH]; intros H; [reflexivity |].
  simpl. destruct (String.eqb x t) eqn:E.
  - apply String.eqb_eq in E. subst x. exfalso. apply H. now left.
  - simpl. f_equal. apply IH. intros C. apply H. now right.
Qed.

(** The selected tags never hold a tag twice: each of the three handlers
    keeps the list free of duplicates.  Adding puts the picked tag at the
    end when it is new and only reports an error when it is already
    there; removing takes the tag out and keeps the others in order. *)
Theorem selected_tags_stay_distinct (st : FormState) :
  List.NoDup (selectedTags st) ->
  List.NoDup (selectedTags (handleAddTag st))
  /\ (forall tag, List.NoDup (selectedTags (handleRemoveTag tag st))
                  /\ ~ In tag (selectedTags (handleRemoveTag tag st)))
  /\ (forall b, List.NoDup (selectedTags (handleApplyToAllChange b st)))
  /\ (selectedTagForAdd st <> "" ->
      In (selectedTagForAdd st) (selectedTags (handleAddTag st))
      /\ (In (selectedTagForAdd st) (selectedTags st) ->
          selectedTags (handleAddTag st) = selectedTags st
          /\ tagsError (handleAddTag st) = "This tag is already selected")).
Proof.
  intros N. repeat split.
  - unfold handleAddTag.
    destruct (truthy (selectedTagForAdd st)); [| exact N]. simpl.
    destruct (arrayIncludes _ _) eqn:I; [exact N |]. simpl.
    apply List.NoDup_app; [exact N | repeat constructor; intros [] |].
    intros x Hx [E | []]. subst x.
    apply includes_In in Hx. congruence.
  - simpl. now apply List.NoDup_filter.
  - simpl. intros C. apply filter_In in C as [_ C].
    now rewrite String.eqb_refl in C.
  - destruct b; [constructor | exact N].
  - unfold handleAddTag. apply truthy_nonempty in H. rewrite H. simpl.
    destruct (arrayIncludes _ _) eqn:I; simpl.
    + now apply includes_In.
    + apply in_or_app. right. now left.
  - unfold handleAddTag. apply truthy_nonempty in H. rewrite H. simpl.
    apply includes_In in H0. now rewrite H0.
  - unfold handleAddTag. apply truthy_nonempty in H. rewrite H. simpl.
    apply includes_In in H0. now rewrite H0.
Qed.

Lemma selected_tags_stay_distinct_witness :
  List.NoDup (selectedTags sampleForm)
  /\ selectedTags (handleAddTag (pick "new" sampleForm)) = "gift" :: "sale" :: "new" :: nil
  /\ List.NoDup (selectedTags (handleAddTag (pick "new" sampleForm)))
  /\ selectedTags (handleAddTag (pick "sale" sampleForm)) = "gift" :: "sale" :: nil
  /\ tagsError (handleAddTag (pick "sale" sampleForm)) = "This tag is already selected".
Proof.
  assert (List.NoDup (selectedTags sampleForm)) as N.
  { repeat constructor; simpl; intros C; repeat destruct C as [C | C];
      try discriminate C; exact C. }
  split; [exact N |]. split; [reflexivity |].
  split; [exact (proj1 (selected_tags_stay_distinct (pick "new" sampleForm) N)) |].
  destruct (selected_tags_stay_distinct (pick "sale" sampleForm) N) as [_ [_ [_ A]]].
  apply A; [discriminate | right; left; reflexivity].
Defined.

(** Adding a tag that was not selected and removing it again gives back
    the list of selected tags as it was. *)
Theorem add_then_remove (st : FormState) :
  selectedTagForAdd st <> "" ->
  ~ In (selectedTagForAdd st) (selectedTags st) ->
  selectedTags (handleRemoveTag (selectedTagForAdd st) (handleAddTag st))
  = selectedTags st.
Proof.
  intros Ht Hn. unfold handleAddTag.
  apply truthy_nonempty in Ht. rewrite Ht. simpl.
  destruct (arrayIncludes _ _) eqn:I; [apply includes_In in I; contradiction |].
  simpl. rewrite List.filter_app. simpl. rewrite String.eqb_refl. simpl.
  rewrite app_nil_r. now apply filter_absent.
Qed.

Lemma add_then_remove_witness :
  selectedTagForAdd (pick "new" sampleForm) <> ""
  /\ ~ In "new" (selectedTags sampleForm)
  /\ selectedTags (handleRemoveTag "new" (handleAddTag (pick "new" sampleForm)))
     = "gift" :: "sale" :: nil.
Proof.
  assert (~ In "new" (selectedTags sampleForm)) as N.
  { simpl. intros C. repeat destruct C as [C | C]; try discriminate C; exact C. }
  split; [discriminate |]. split; [exact N |].
  exact (add_then_remove (pick "new" sampleForm) ltac:(discriminate) N).
Defined.

(** The select offers, after its placeholder, exactly the product tags
    that are not selected yet, in their order; so picking any tag it offers
    and adding it never runs into the already-selected error: the tag is
    appended and the error cleared. *)
Theorem offered_tags_can_be_added
  (productTags : list string) (st : FormState) (entry : SelectOption) :
  List.map value (getSelectableTagOptions productTags st)
  = "" :: List.filter (fun tag => negb (arrayIncludes (selectedTags st) tag)) productTags
  /\ (In entry (getSelectableTagOptions productTags st) ->
      value entry <> "" ->
      In (value entry) productTags
      /\ ~ In (value entry) (selectedTags st)
      /\ selectedTags (handleAddTag (pick (value entry) st))
         = selectedTags st ++ value entry :: nil
      /\ tagsError (handleAddTag (pick (value entry) st)) = "").
Proof.
  split.
  - unfold getSelectableTagOptions. simpl. f_equal.
    rewrite List.map_map. simpl. apply List.map_id.
  - intros Hin Hv. unfold getSelectableTagOptions in Hin.
    destruct Hin as [<- | Hin]; [now contradiction Hv |].
    apply in_map_iff in Hin as [tag [<- Hin]]. simpl in *.
    apply filter_In in Hin as [Hp Hs]. apply negb_true_iff in Hs.
    assert (~ In tag (selectedTags st)) as N.
    { intros C. apply includes_In in C. congruence. }
    unfold handleAddTag, pick. simpl.
    apply truthy_nonempty in Hv. rewrite Hv, Hs. simpl. auto.
Qed.

Lemma offered_tags_can_be_added_witness :
  List.map value (getSelectableTagOptions ("sale" :: "new" :: "gift" :: "shoes" :: nil)
                                          sampleForm)
  = "" :: "new" :: "shoes" :: nil
  /\ In {| label := "shoes"; value := "shoes" |}
        (getSelectableTagOptions ("sale" :: "new" :: "gift" :: "shoes" :: nil) sampleForm)
  /\ selectedTags (handleAddTag (pick "shoes" sampleForm))
     = "gift" :: "sale" :: "shoes" :: nil.
Proof.
  assert (In {| label := "shoes"; value := "shoes" |}
             (getSelectableTagOptions ("sale" :: "new" :: "gift" :: "shoes" :: nil)
                                      sampleForm)) as H
    by (right; right; left; reflexivity).
  split; [reflexivity |]. split; [exact H |].
  destruct (offered_tags_can_be_added
              ("sale" :: "new" :: "gift" :: "shoes" :: nil) sampleForm
              {| label := "shoes"; value := "shoes" |}) as [_ A].
  destruct (A H ltac:(discriminate)) as [_ [_ [E _]]]. exact E.
Defined.

End TagPickerFacts.
